(** * The protected dialer of libcore (protect.go)

    A shallow embedding of [protectedDialer.Dial], [protectedDialer.dial]
    and [getFd].  The code is effectful: it calls the resolver, the
    protector, the kernel and the [net]/[os] packages.  Every such call is
    recorded in a trace, and the answers of the kernel and of the Go
    libraries are taken from an environment the theorems quantify over. *)

From Stdlib Require Import ZArith List String Bool Lia.
From Stdlib.Strings Require Import Byte.
Import ListNotations.
Local Open Scope string_scope.
Local Open Scope list_scope.
Local Open Scope Z_scope.

Set Implicit Arguments.

(** ** Data model *)

(** [net.IP] is a byte slice. *)
Definition IP := list byte.

Definition IPv4len : nat := 4.
Definition IPv6len : nat := 16.

(** [v2rayNet.Network], the enumeration of the v2ray-core protocol buffer. *)
Inductive Network :=
| Network_Unknown
| Network_RawTCP
| Network_TCP
| Network_UDP
| Network_UNIX.

Definition Network_eqb (a b : Network) : bool :=
  match a, b with
  | Network_Unknown, Network_Unknown
  | Network_RawTCP, Network_RawTCP
  | Network_TCP, Network_TCP
  | Network_UDP, Network_UDP
  | Network_UNIX, Network_UNIX => true
  | _, _ => false
  end.

(** [v2rayNet.Address] is an interface; a value of it is either an IP
    address or a domain name, and the nil interface is [None] of
    [option Address]. *)
Inductive Address :=
| AddrIP (ip : IP)
| AddrDomain (domain : string).

Inductive AddressFamily :=
| AddressFamilyIPv4
| AddressFamilyIPv6
| AddressFamilyDomain.

Definition Family (a : Address) : AddressFamily :=
  match a with
  | AddrIP ip => if Nat.eqb (List.length ip) IPv4len then AddressFamilyIPv4
                 else AddressFamilyIPv6
  | AddrDomain _ => AddressFamilyDomain
  end.

Definition IsDomain (f : AddressFamily) : bool :=
  match f with AddressFamilyDomain => true | _ => false end.

Fixpoint all_zero (bs : list byte) : bool :=
  match bs with
  | [] => true
  | b :: bs' => Byte.eqb b x00 && all_zero bs'
  end.

(** [v2rayNet.IPAddress] of v2ray-core, which this package imports: four
    bytes make an IPv4 address, sixteen bytes make an IPv6 address unless
    they are an IPv4-mapped address (ten zero bytes, then ff ff), which is
    reduced to its last four bytes; any other length is logged by v2ray and
    gives the nil address. *)
Definition IPAddress (ip : IP) : option Address :=
  if Nat.eqb (List.length ip) IPv4len then Some (AddrIP ip)
  else if Nat.eqb (List.length ip) IPv6len then
    if all_zero (firstn 10 ip)
       && Byte.eqb (nth 10 ip x00) xff && Byte.eqb (nth 11 ip x00) xff
    then Some (AddrIP (firstn 4 (skipn 12 ip)))
    else Some (AddrIP ip)
  else None.

Record Destination := {
  Address_ : option Address;
  Port : Z;
  Network_ : Network
}.

Definition set_Address (d : Destination) (a : option Address) : Destination :=
  {| Address_ := a; Port := Port d; Network_ := Network_ d |}.

(** [internet.SocketConfig] is an opaque bag of options for this package;
    the mark stands for its contents. *)
Record SocketConfig := { Mark : Z }.

(** Go errors.  [errors.New] and [fmt.Errorf] carry their message, a
    [syscall.Errno] carries its number; [ExtError] is an error made by the
    resolver or by the [net] package. *)
Inductive error :=
| dns_ErrEmptyResponse
| errors_New (msg : string)
| fmt_Errorf (msg : string)
| Errno (code : Z)
| ExtError (msg : string).

(** [context.Context], as far as this package builds and passes contexts:
    the background context, a context of the caller, and a context with a
    timeout (a [time.Duration], in nanoseconds) below a parent. *)
Inductive Context :=
| Background
| CallerCtx (id : nat)
| WithTimeout (parent : Context) (d : Z).

Definition time_Second : Z := 1000000000.

(** [unix.Sockaddr] *)
Inductive Sockaddr :=
| SockaddrInet4 (port : Z) (addr : list byte)
| SockaddrInet6 (port : Z) (addr : list byte).

(** Go's [copy] into a zeroed array of [n] bytes. *)
Definition copy (n : nat) (src : list byte) : list byte :=
  firstn n src ++ repeat x00 (n - List.length src).

(** [*os.File]: [os.NewFile(uintptr(fd), name)] keeps the descriptor;
    the conversion to [uintptr] and back to [int] inside the [os] package
    gives [fd] again for every [int]. *)
Record File := { file_fd : Z; file_name : string }.

(** Connections of the [net] package made from a file. *)
Record PacketConn := { pc_id : Z }.
Record NetConn := { nc_id : Z }.
Record UDPAddr := { udp_IP : IP; udp_Port : Z }.

(** [net.Conn] as [dial] returns it: the connection [net.FileConn] made, or
    an [internet.PacketConnWrapper]. *)
Inductive Conn :=
| FileConn_conn (c : NetConn)
| PacketConnWrapper (Conn_ : PacketConn) (Dest : UDPAddr).

(** [destination.NetAddr()] is the text "address:port"; the pair it prints
    stands for the text. *)
Definition NetAddr (d : Destination) : option Address * Z :=
  (Address_ d, Port d).

(** A library call that returns a value and an error. *)
Inductive result (A : Type) :=
| Ok (a : A)
| Err (e : error).
Arguments Err {A} e.

(** ** Integer conversions *)

Definition int32 (x : Z) : Z := (x + 2 ^ 31) mod 2 ^ 32 - 2 ^ 31.
Definition uintptr (x : Z) : Z := x mod 2 ^ 64.

(** ** Constants of golang.org/x/sys/unix on Linux *)

Definition AF_INET : Z := 2.
Definition AF_INET6 : Z := 10.
Definition SOCK_STREAM : Z := 1.
Definition SOCK_DGRAM : Z := 2.
Definition IPPROTO_TCP : Z := 6.
Definition IPPROTO_UDP : Z := 17.

(** ** The environment of one attempt

    What the kernel and the Go libraries answer during one call of
    [dial], as functions of the arguments of the call. *)
Record AttemptOS := {
  os_Socket : Z -> Z -> Z -> Z * option error;
  os_Connect : Z -> Sockaddr -> option error;
  os_NewFile : Z -> bool;
  os_FilePacketConn : File -> result PacketConn;
  os_ResolveUDPAddr : string -> option Address * Z -> result UDPAddr;
  os_FileConn : File -> result NetConn
}.

(** ** Traces *)

(** The calls [dial] makes, each with its arguments and its answer. *)
Inductive SysEvent :=
| EvSocket (af ty proto : Z) (r : Z * option error)
| EvProtect (fd : Z) (ok : bool)
| EvApplySockopt (sockopt : SocketConfig) (destination : Destination)
                 (fd : Z) (ctx : Context)
| EvConnect (fd : Z) (sa : Sockaddr) (r : option error)
| EvClose (fd : Z)
| EvNewFile (fd : Z) (name : string) (r : option File)
| EvFilePacketConn (f : File) (r : result PacketConn)
| EvResolveUDPAddr (network : string) (addr : option Address * Z)
                   (r : result UDPAddr)
| EvFileConn (f : File) (r : result NetConn)
| EvFileClose (f : File).

(** The outcome of a Go call: it returns, or it panics. *)
Inductive res (A : Type) :=
| Done (a : A)
| Panicked (msg : string).
Arguments Panicked {A} msg.

Definition DialResult := res (option Conn * option error).

(** The steps of [Dial]: the resolver call, the two log lines of the loop,
    and each call of [dial] with the destination it was given, the calls it
    made and its outcome. *)
Inductive DialEvent :=
| EvResolve (ctx : Context) (domain : string) (r : list IP * option error)
| EvWarn (e : error)
| EvDebug (ip : IP)
| EvAttempt (destination : Destination) (sys : list SysEvent)
            (r : DialResult).

(** ** The protector *)

(** [Protector] is an interface with one method.  An implementation may
    keep state, so [Protect] returns the protector after the call. *)
Class Protector (P : Type) := Protect : P -> Z -> bool * P.

Inductive noopProtector := noopProtectorInstance.

#[export] Instance noopProtector_Protector : Protector noopProtector :=
  fun n _ => (true, n).

(** A protector for tests: it answers from a list, one answer per call,
    and [true] when the list is used up. *)
#[export] Instance scripted_Protector : Protector (list bool) :=
  fun l _ => match l with
             | [] => (true, [])
             | b :: l' => (b, l')
             end.

(** ** A monad for the calls: protector state, trace, panic *)

Definition M (E P A : Type) := P -> res A * P * list E.

Definition ret {E P A} (a : A) : M E P A := fun p => (Done a, p, []).

Definition bind {E P A B} (m : M E P A) (f : A -> M E P B) : M E P B :=
  fun p =>
    match m p with
    | (Done a, p1, t1) =>
        match f a p1 with
        | (r, p2, t2) => (r, p2, t1 ++ t2)
        end
    | (Panicked msg, p1, t1) => (Panicked msg, p1, t1)
    end.

Definition emit {E P} (e : E) : M E P unit := fun p => (Done tt, p, [e]).

Definition panic {E P A} (msg : string) : M E P A :=
  fun p => (Panicked msg, p, []).

(** [defer]: the deferred call runs when the body returns and when it
    panics. *)
Definition defer {E P A} (cleanup : M E P unit) (body : M E P A) : M E P A :=
  fun p =>
    match body p with
    | (r, p1, t1) =>
        match cleanup p1 with
        | (_, p2, t2) => (r, p2, t1 ++ t2)
        end
    end.

Declare Scope dial_scope.
Delimit Scope dial_scope with dial.
Notation "x <- c1 ;; c2" := (bind c1 (fun x => c2))
  (at level 100, c1 at next level, right associativity) : dial_scope.
Notation "' pat <- c1 ;; c2" := (bind c1 (fun x => match x with pat => c2 end))
  (at level 100, pat pattern, c1 at next level, right associativity)
  : dial_scope.
Notation "c1 ;; c2" := (bind c1 (fun _ => c2))
  (at level 100, right associativity) : dial_scope.
Local Open Scope dial_scope.

(** [Address.IP()] and [Address.Domain()]: a method call on the nil
    interface panics, v2ray's domain address panics in [IP] and its IP
    addresses panic in [Domain]. *)
Definition Address_IP {E P} (a : option Address) : M E P IP :=
  match a with
  | None => panic "invalid memory address or nil pointer dereference"
  | Some (AddrIP ip) => ret ip
  | Some (AddrDomain _) => panic "Calling IP() on a DomainAddress."
  end.

Definition Address_Domain {E P} (a : option Address) : M E P string :=
  match a with
  | None => panic "invalid memory address or nil pointer dereference"
  | Some (AddrIP _) => panic "Calling Domain() on an IPAddress."
  | Some (AddrDomain d) => ret d
  end.

(** ** The calls of [dial] *)

Section Calls.
Context {P : Type} `{Protector P}.
Variable o : AttemptOS.

Definition unix_Socket (af ty proto : Z) : M SysEvent P (Z * option error) :=
  let r := os_Socket o af ty proto in
  emit (EvSocket af ty proto r) ;; ret r.

Definition protector_Protect (fd : Z) : M SysEvent P bool :=
  fun p => let (ok, p') := Protect p fd in (Done ok, p', [EvProtect fd ok]).

Definition internet_ApplySockopt (sockopt : SocketConfig)
    (destination : Destination) (fd : Z) (ctx : Context)
  : M SysEvent P unit :=
  emit (EvApplySockopt sockopt destination fd ctx).

Definition unix_Connect (fd : Z) (sa : Sockaddr)
  : M SysEvent P (option error) :=
  let r := os_Connect o fd sa in
  emit (EvConnect fd sa r) ;; ret r.

Definition unix_Close (fd : Z) : M SysEvent P unit := emit (EvClose fd).

Definition os_NewFile_ (fd : Z) (name : string)
  : M SysEvent P (option File) :=
  let r := if os_NewFile o fd
           then Some {| file_fd := fd; file_name := name |} else None in
  emit (EvNewFile fd name r) ;; ret r.

Definition file_Close (f : File) : M SysEvent P unit := emit (EvFileClose f).

Definition net_FilePacketConn (f : File) : M SysEvent P (result PacketConn) :=
  let r := os_FilePacketConn o f in
  emit (EvFilePacketConn f r) ;; ret r.

Definition net_ResolveUDPAddr (network : string) (addr : option Address * Z)
  : M SysEvent P (result UDPAddr) :=
  let r := os_ResolveUDPAddr o network addr in
  emit (EvResolveUDPAddr network addr r) ;; ret r.

Definition net_FileConn (f : File) : M SysEvent P (result NetConn) :=
  let r := os_FileConn o f in
  emit (EvFileConn f r) ;; ret r.

(** ** [getFd] *)
Definition getFd (network : Network) (ipv6 : bool)
  : M SysEvent P (Z * option error) :=
  let af := if negb ipv6 then AF_INET else AF_INET6 in
  match network with
  | Network_TCP => unix_Socket af SOCK_STREAM IPPROTO_TCP
  | Network_UDP => unix_Socket af SOCK_DGRAM IPPROTO_UDP
  | Network_UNIX => unix_Socket af SOCK_STREAM 0
  | _ => ret (0, Some (fmt_Errorf "unknow network"))
  end.

(** The end of [dial]: [if err != nil { return nil, err }; return conn, nil]. *)
Definition dial_return (conn : option Conn) (err : option error)
  : M SysEvent P (option Conn * option error) :=
  match err with
  | Some e => ret (None, Some e)
  | None => ret (conn, None)
  end.

(** ** [protectedDialer.dial]

    The context passed in is overwritten by the first statement; the
    deferred [cancel] of the new context has no effect on the calls below
    and is left out.  [conn] and [err] are the named results; in the datagram case the two [:=]
    declare new variables [err], so the named [err] keeps the nil that
    [unix.Connect] gave when [dial_return] reads it. *)
Definition dial (ctx : Context) (source : option Address)
    (destination : Destination) (sockopt : option SocketConfig)
  : M SysEvent P (option Conn * option error) :=
  let ctx := WithTimeout Background (10 * time_Second) in
  destIp <- Address_IP (Address_ destination) ;;
  let ipv6 := negb (Nat.eqb (List.length destIp) IPv4len) in
  '(fd, err) <- getFd (Network_ destination) ipv6 ;;
  match err with
  | Some e => ret (None, Some e)
  | None =>
  ok <- protector_Protect (int32 fd) ;;
  if negb ok then
    unix_Close fd ;;
    ret (None, Some (errors_New "protect failed"))
  else
  match sockopt with
  | Some so => internet_ApplySockopt so destination (uintptr fd) ctx
  | None => ret tt
  end ;;
  let sockaddr :=
    if negb ipv6
    then SockaddrInet4 (Port destination) (copy 4 destIp)
    else SockaddrInet6 (Port destination) (copy 16 destIp) in
  err <- unix_Connect fd sockaddr ;;
  match err with
  | Some e => unix_Close fd ;; ret (None, Some e)
  | None =>
  file <- os_NewFile_ fd "socket" ;;
  match file with
  | None => ret (None, Some (errors_New "failed to connect to fd"))
  | Some file =>
  defer (file_Close file)
    match Network_ destination with
    | Network_UDP =>
        r <- net_FilePacketConn file ;;
        match r with
        | Ok pc =>
            a <- net_ResolveUDPAddr "udp" (NetAddr destination) ;;
            match a with
            | Err e => ret (None, Some e)
            | Ok destAddr =>
                dial_return (Some (PacketConnWrapper pc destAddr)) err
            end
        | Err _ => dial_return None err
        end
    | _ =>
        r <- net_FileConn file ;;
        match r with
        | Ok c => dial_return (Some (FileConn_conn c)) None
        | Err e => dial_return None (Some e)
        end
    end
  end
  end
  end.
End Calls.

(** ** [protectedDialer.Dial] *)

Record protectedDialer (P : Type) := {
  protector : P;
  resolver : Context -> string -> list IP * option error
}.

Section Dialer.
Context {P : Type} `{Protector P}.

(** [os i] is the environment of the call of [dial] in iteration [i] of
    the loop of [Dial]. *)
Variable os : nat -> AttemptOS.
Variable resolve : Context -> string -> list IP * option error.

Definition dialer_resolver (ctx : Context) (domain : string)
  : M DialEvent P (list IP * option error) :=
  let r := resolve ctx domain in
  emit (EvResolve ctx domain r) ;; ret r.

Definition logrus_Warn (e : error) : M DialEvent P unit := emit (EvWarn e).
Definition logrus_Debug (ip : IP) : M DialEvent P unit := emit (EvDebug ip).

(** The call [dialer.dial(ctx, source, destination, sockopt)] of
    iteration [i], entered in the trace of [Dial] as one event. *)
Definition dialer_dial (i : nat) (ctx : Context) (source : option Address)
    (destination : Destination) (sockopt : option SocketConfig)
  : M DialEvent P (option Conn * option error) :=
  fun p =>
    match dial (os i) ctx source destination sockopt p with
    | (r, p', sys) => (r, p', [EvAttempt destination sys r])
    end.

(** The loop [for i, ip := range ips] of [Dial], from iteration [i] on,
    with the values of [destination], [conn] and [err] on entry. *)
Fixpoint Dial_loop (ctx : Context) (source : option Address)
    (sockopt : option SocketConfig) (i : nat) (ips : list IP)
    (destination : Destination) (conn : option Conn) (err : option error)
  : M DialEvent P (option Conn * option error) :=
  match ips with
  | [] => ret (conn, err)
  | ip :: rest =>
      let body :=
        let destination := set_Address destination (IPAddress ip) in
        '(conn, err) <- dialer_dial i ctx source destination sockopt ;;
        Dial_loop ctx source sockopt (S i) rest destination conn err in
      if (0 <? i)%nat then
        match err with
        | None => ret (conn, err)
        | Some e => logrus_Warn e ;; logrus_Debug ip ;; body
        end
      else body
  end.

Definition is_nil {A} (a : option A) : bool :=
  match a with None => true | Some _ => false end.

Definition Dial_body (ctx : Context) (source : option Address)
    (destination : Destination) (sockopt : option SocketConfig)
  : M DialEvent P (option Conn * option error) :=
  if Network_eqb (Network_ destination) Network_Unknown
     || is_nil (Address_ destination)
  then panic "connect to invalid destination"
  else
    match Address_ destination with
    | None => panic "invalid memory address or nil pointer dereference"
    | Some a =>
        if IsDomain (Family a) then
          domain <- Address_Domain (Address_ destination) ;;
          '(ips, err) <- dialer_resolver ctx domain ;;
          let err :=
            match err with
            | None => if Nat.eqb (List.length ips) 0
                      then Some dns_ErrEmptyResponse else None
            | Some e => Some e
            end in
          match err with
          | Some e => ret (None, Some e)
          | None => Dial_loop ctx source sockopt 0 ips destination None err
          end
        else
          ip <- Address_IP (Address_ destination) ;;
          Dial_loop ctx source sockopt 0 [ip] destination None None
    end.
End Dialer.

(** [Dial] runs with the protector and the resolver of the dialer; its
    value is the outcome, the protector afterwards and the trace. *)
Definition Dial {P} `{Protector P} (os : nat -> AttemptOS)
    (dialer : protectedDialer P) (ctx : Context) (source : option Address)
    (destination : Destination) (sockopt : option SocketConfig)
  : DialResult * P * list DialEvent :=
  Dial_body os (resolver dialer) ctx source destination sockopt
            (protector dialer).

(** ** Reading traces *)

Definition AttemptRec : Type := Destination * list SysEvent * DialResult.

Definition att_destination (a : AttemptRec) : Destination := fst (fst a).
Definition att_sys (a : AttemptRec) : list SysEvent := snd (fst a).
Definition att_result (a : AttemptRec) : DialResult := snd a.

(** The calls of [dial] in a trace of [Dial], in order. *)
Fixpoint attempts (tr : list DialEvent) : list AttemptRec :=
  match tr with
  | [] => []
  | EvAttempt d sys r :: tr' => (d, sys, r) :: attempts tr'
  | _ :: tr' => attempts tr'
  end.

(** The resolver calls in a trace of [Dial]. *)
Fixpoint resolver_calls (tr : list DialEvent) : list (Context * string) :=
  match tr with
  | [] => []
  | EvResolve ctx d _ :: tr' => (ctx, d) :: resolver_calls tr'
  | _ :: tr' => resolver_calls tr'
  end.

(** An attempt failed when [dial] returned an error; [Dial] tests nothing
    else. *)
Definition att_failed (a : AttemptRec) : bool :=
  match att_result a with
  | Done (_, Some _) => true
  | _ => false
  end.

(** The descriptors [unix.Socket] created in a trace of [dial]. *)
Fixpoint created (sys : list SysEvent) : list Z :=
  match sys with
  | [] => []
  | EvSocket _ _ _ (fd, None) :: sys' => fd :: created sys'
  | _ :: sys' => created sys'
  end.

(** The socket calls of a trace of [dial]. *)
Fixpoint socket_calls (sys : list SysEvent) : list (Z * Z * Z) :=
  match sys with
  | [] => []
  | EvSocket af ty proto _ :: sys' => (af, ty, proto) :: socket_calls sys'
  | _ :: sys' => socket_calls sys'
  end.

(** The descriptors closed in a trace of [dial], by [unix.Close] or by
    closing the file that holds them. *)
Fixpoint closed (sys : list SysEvent) : list Z :=
  match sys with
  | [] => []
  | EvClose fd :: sys' => fd :: closed sys'
  | EvFileClose f :: sys' => file_fd f :: closed sys'
  | _ :: sys' => closed sys'
  end.

(** The connection objects made from a file in a trace of [dial], each
    with the descriptor of the file. *)
Inductive Wrapped :=
| WrappedPacket (pc : PacketConn)
| WrappedStream (c : NetConn).

Fixpoint wrappers (sys : list SysEvent) : list (Z * Wrapped) :=
  match sys with
  | [] => []
  | EvFilePacketConn f (Ok pc) :: sys' =>
      (file_fd f, WrappedPacket pc) :: wrappers sys'
  | EvFileConn f (Ok c) :: sys' =>
      (file_fd f, WrappedStream c) :: wrappers sys'
  | _ :: sys' => wrappers sys'
  end.

(** The connection object inside a [net.Conn] that [dial] returns. *)
Definition conn_wrapped (c : Conn) : Wrapped :=
  match c with
  | FileConn_conn n => WrappedStream n
  | PacketConnWrapper pc _ => WrappedPacket pc
  end.

(** Whether [unix.Connect] succeeded in a trace of [dial]. *)
Fixpoint connected (sys : list SysEvent) : bool :=
  match sys with
  | [] => false
  | EvConnect _ _ None :: _ => true
  | _ :: sys' => connected sys'
  end.

(** The answers of the protector in a trace of [dial]. *)
Fixpoint protect_answers (sys : list SysEvent) : list (Z * bool) :=
  match sys with
  | [] => []
  | EvProtect fd ok :: sys' => (fd, ok) :: protect_answers sys'
  | _ :: sys' => protect_answers sys'
  end.

(** The context a call is given, if its signature has one:
    [unix.Connect(fd, sockaddr)] and the other system calls take none. *)
Definition sys_ctx (e : SysEvent) : option Context :=
  match e with
  | EvApplySockopt _ _ _ ctx => Some ctx
  | _ => None
  end.

Definition is_connect (e : SysEvent) : bool :=
  match e with EvConnect _ _ _ => true | _ => false end.

Definition is_sockopt (e : SysEvent) : bool :=
  match e with EvApplySockopt _ _ _ _ => true | _ => false end.

(** Whether the protector refused a descriptor in a trace of [dial]. *)
Fixpoint protect_refused (sys : list SysEvent) : bool :=
  match sys with
  | [] => false
  | EvProtect _ false :: _ => true
  | _ :: sys' => protect_refused sys'
  end.

(** Whether [net.FilePacketConn] failed in a trace of [dial]. *)
Fixpoint packet_conn_failed (sys : list SysEvent) : bool :=
  match sys with
  | [] => false
  | EvFilePacketConn _ (Err _) :: _ => true
  | _ :: sys' => packet_conn_failed sys'
  end.

(** The failure, if any, of turning the connected descriptor into a
    connection object: [os.NewFile] gave nil, or [net.FilePacketConn],
    [net.ResolveUDPAddr] or [net.FileConn] gave an error. *)
Fixpoint conversion_error (sys : list SysEvent) : option error :=
  match sys with
  | [] => None
  | EvNewFile _ _ None :: _ => Some (errors_New "failed to connect to fd")
  | EvFilePacketConn _ (Err e) :: _ => Some e
  | EvResolveUDPAddr _ _ (Err e) :: _ => Some e
  | EvFileConn _ (Err e) :: _ => Some e
  | _ :: sys' => conversion_error sys'
  end.

(** The contexts given to the calls of a trace of [dial]. *)
Fixpoint sys_contexts (sys : list SysEvent) : list Context :=
  match sys with
  | [] => []
  | e :: sys' =>
      match sys_ctx e with
      | Some c => c :: sys_contexts sys'
      | None => sys_contexts sys'
      end
  end.

(** The timeout context of [dial]. *)
Definition dial_timeout_ctx : Context :=
  WithTimeout Background (10 * time_Second).

Definition Context_eqb_timeout (c : Context) : bool :=
  match c with
  | WithTimeout Background d => d =? 10 * time_Second
  | _ => false
  end.

(** A call runs under the timeout of [dial] when it is given that
    context. *)
Definition under_timeout (e : SysEvent) : bool :=
  match sys_ctx e with
  | Some c => Context_eqb_timeout c
  | None => false
  end.

(** ** Example environments *)

Definition ip_10_0_0_1 : IP := [x0a; x00; x00; x01].
Definition ip_10_0_0_2 : IP := [x0a; x00; x00; x02].

(** Every call succeeds; the socket gets descriptor [fd]. *)
Definition os_ok (fd : Z) : AttemptOS := {|
  os_Socket := fun _ _ _ => (fd, None);
  os_Connect := fun _ _ => None;
  os_NewFile := fun _ => true;
  os_FilePacketConn := fun f => Ok {| pc_id := file_fd f + 100 |};
  os_ResolveUDPAddr := fun _ a =>
    Ok {| udp_IP := match fst a with Some (AddrIP ip) => ip | _ => [] end;
          udp_Port := snd a |};
  os_FileConn := fun f => Ok {| nc_id := file_fd f + 100 |}
|}.

Definition EMFILE : Z := 24.
Definition ENETUNREACH : Z := 101.

(** [unix.Socket] fails: too many open files. *)
Definition os_socket_fails : AttemptOS := {|
  os_Socket := fun _ _ _ => (-1, Some (Errno EMFILE));
  os_Connect := os_Connect (os_ok 0);
  os_NewFile := os_NewFile (os_ok 0);
  os_FilePacketConn := os_FilePacketConn (os_ok 0);
  os_ResolveUDPAddr := os_ResolveUDPAddr (os_ok 0);
  os_FileConn := os_FileConn (os_ok 0)
|}.

(** [unix.Connect] fails: network unreachable. *)
Definition os_connect_fails (fd : Z) : AttemptOS := {|
  os_Socket := os_Socket (os_ok fd);
  os_Connect := fun _ _ => Some (Errno ENETUNREACH);
  os_NewFile := os_NewFile (os_ok fd);
  os_FilePacketConn := os_FilePacketConn (os_ok fd);
  os_ResolveUDPAddr := os_ResolveUDPAddr (os_ok fd);
  os_FileConn := os_FileConn (os_ok fd)
|}.

(** The connect succeeds and then [net.FileConn] and [net.FilePacketConn]
    fail, as when duplicating the descriptor fails. *)
Definition os_wrap_fails (fd : Z) : AttemptOS := {|
  os_Socket := os_Socket (os_ok fd);
  os_Connect := os_Connect (os_ok fd);
  os_NewFile := os_NewFile (os_ok fd);
  os_FilePacketConn := fun _ => Err (Errno EMFILE);
  os_ResolveUDPAddr := os_ResolveUDPAddr (os_ok fd);
  os_FileConn := fun _ => Err (Errno EMFILE)
|}.

Definition example_destination (n : Network) (a : Address) : Destination :=
  {| Address_ := Some a; Port := 443; Network_ := n |}.

Definition example_dialer (ips : list IP) : protectedDialer noopProtector :=
  {| protector := noopProtectorInstance;
     resolver := fun _ _ => (ips, None) |}.

(** The outcome and the trace of a run. *)
Definition outcome {A P E} (x : res A * P * list E) : res A := fst (fst x).
Definition trace {A P E} (x : res A * P * list E) : list E := snd x.

(** An IP address as the resolver and [net] make them: 4 or 16 bytes. *)
Definition valid_ip (ip : IP) : bool :=
  Nat.eqb (List.length ip) IPv4len || Nat.eqb (List.length ip) IPv6len.

(** ** The candidates of a call of [Dial]

    [has_candidates dialer ctx destination ips]: [Dial] passes its test of
    the destination and enters its loop with the list [ips]: the answer of
    the resolver, without error and not empty, for a domain, and the one
    address of the destination otherwise. *)
Definition has_candidates {P} (dialer : protectedDialer P) (ctx : Context)
    (destination : Destination) (ips : list IP) : Prop :=
  Network_ destination <> Network_Unknown /\
  match Address_ destination with
  | Some (AddrDomain domain) =>
      resolver dialer ctx domain = (ips, None) /\ ips <> []
  | Some (AddrIP ip) => ips = [ip]
  | None => False
  end.

(** ** Example runs *)

Definition example_domain : Destination :=
  example_destination Network_TCP (AddrDomain "example.test").

Definition two_addresses : list IP := [ip_10_0_0_1; ip_10_0_0_2].

(** The first attempt fails in [net.FileConn], the second succeeds. *)
Definition os_first_wrap_fails (i : nat) : AttemptOS :=
  match i with
  | O => os_wrap_fails 7
  | S _ => os_ok 8
  end.

Definition wrap_failure_run : DialResult * noopProtector * list DialEvent :=
  Dial os_first_wrap_fails (example_dialer two_addresses) (CallerCtx 1) None
       example_domain None.

(** The first address is unreachable, the second is reached. *)
Definition os_first_unreachable (i : nat) : AttemptOS :=
  match i with
  | O => os_connect_fails 7
  | S _ => os_ok 8
  end.

Definition fallback_run : DialResult * noopProtector * list DialEvent :=
  Dial os_first_unreachable (example_dialer two_addresses) (CallerCtx 1) None
       example_domain None.

(** A dialer whose protector refuses the first descriptor. *)
Definition refusing_dialer (ips : list IP) : protectedDialer (list bool) :=
  {| protector := [false];
     resolver := fun _ _ => (ips, None) |}.

Definition refused_run : DialResult * list bool * list DialEvent :=
  Dial (fun _ => os_ok 7) (refusing_dialer two_addresses) (CallerCtx 1) None
       example_domain None.

(** A dialer whose resolver fails. *)
Definition failing_dialer : protectedDialer noopProtector :=
  {| protector := noopProtectorInstance;
     resolver := fun _ _ => ([], Some (ExtError "no such host")) |}.

(** One attempt in which [unix.Socket] fails. *)
Definition socket_failure_run
  : res (option Conn * option error) * noopProtector * list SysEvent :=
  dial os_socket_fails (CallerCtx 1) None
       (example_destination Network_TCP (AddrIP ip_10_0_0_1)) None
       noopProtectorInstance.

(** One successful attempt with socket options. *)
Definition sockopt_run
  : res (option Conn * option error) * noopProtector * list SysEvent :=
  dial (os_ok 7) (CallerCtx 1) None
       (example_destination Network_TCP (AddrIP ip_10_0_0_1))
       (Some {| Mark := 255 |}) noopProtectorInstance.

(** A datagram destination whose attempt fails in [net.FilePacketConn]. *)
Definition datagram_destination : Destination :=
  {| Address_ := Some (AddrIP ip_10_0_0_1); Port := 53;
     Network_ := Network_UDP |}.

Definition packet_failure_run
  : DialResult * noopProtector * list DialEvent :=
  Dial (fun _ => os_wrap_fails 7) (example_dialer []) (CallerCtx 1) None
       datagram_destination None.

(** The first attempt of the runs above. *)
Definition first_attempt (tr : list DialEvent) : AttemptRec :=
  nth 0 (attempts tr) (example_domain, [], Panicked "no attempt").

Definition refused_first : AttemptRec :=
  Eval vm_compute in first_attempt (trace refused_run).

Definition wrap_failure_first : AttemptRec :=
  Eval vm_compute in first_attempt (trace wrap_failure_run).

Definition packet_failure_first : AttemptRec :=
  Eval vm_compute in first_attempt (trace packet_failure_run).

(** ** The loop of [Dial] as a relation

    [LoopRun d i ips atts r]: from iteration [i] on, with candidates [ips]
    left, the loop calls [dial] as [atts] records and [Dial] ends with
    [r].  The loop goes on after a call exactly when the call returned an
    error and a candidate is left. *)
Section LoopRel.
Context {P : Type} `{Protector P}.
Variable os : nat -> AttemptOS.
Variable ctx : Context.
Variable source : option Address.
Variable sockopt : option SocketConfig.

(** [a] records a call of [dial] in iteration [i]. *)
Definition made_in (i : nat) (a : AttemptRec) : Prop :=
  exists p p',
    dial (os i) ctx source (att_destination a) sockopt p
    = (att_result a, p', att_sys a).

Inductive LoopRun (d : Destination)
  : nat -> list IP -> list AttemptRec -> DialResult -> Prop :=
| LoopRun_stop : forall i ip rest a,
    att_destination a = set_Address d (IPAddress ip) ->
    made_in i a ->
    att_failed a = false ->
    LoopRun d i (ip :: rest) [a] (att_result a)
| LoopRun_exhausted : forall i ip a,
    att_destination a = set_Address d (IPAddress ip) ->
    made_in i a ->
    att_failed a = true ->
    LoopRun d i [ip] [a] (att_result a)
| LoopRun_next : forall i ip rest a atts r,
    att_destination a = set_Address d (IPAddress ip) ->
    made_in i a ->
    att_failed a = true ->
    rest <> [] ->
    LoopRun d (S i) rest atts r ->
    LoopRun d i (ip :: rest) (a :: atts) r.
End LoopRel.

(** ** More readers of traces *)

(** The connect calls of a trace of [dial]: descriptor and address. *)
Fixpoint connect_calls (sys : list SysEvent) : list (Z * Sockaddr) :=
  match sys with
  | [] => []
  | EvConnect fd sa _ :: sys' => (fd, sa) :: connect_calls sys'
  | _ :: sys' => connect_calls sys'
  end.

(** The place of a call in the text of [dial]: the socket, the protector,
    the socket options, the connect, the file, the connection made from the
    file, the peer address, and the closing of the descriptor. *)
Definition call_rank (e : SysEvent) : nat :=
  match e with
  | EvSocket _ _ _ _ => 0
  | EvProtect _ _ => 1
  | EvApplySockopt _ _ _ _ => 2
  | EvConnect _ _ _ => 3
  | EvNewFile _ _ _ => 4
  | EvFilePacketConn _ _ => 5
  | EvFileConn _ _ => 5
  | EvResolveUDPAddr _ _ _ => 6
  | EvClose _ => 7
  | EvFileClose _ => 7
  end.

(** A list of numbers that grows strictly. *)
Fixpoint increasing (l : list nat) : bool :=
  match l with
  | a :: (b :: _) as l' => Nat.ltb a b && increasing l'
  | _ => true
  end.

(** The error an attempt returned. *)
Definition att_error (a : AttemptRec) : option error :=
  match att_result a with
  | Done (_, e) => e
  | Panicked _ => None
  end.

(** The warnings and the debug lines in a trace of [Dial]. *)
Fixpoint warnings (tr : list DialEvent) : list error :=
  match tr with
  | [] => []
  | EvWarn e :: tr' => e :: warnings tr'
  | _ :: tr' => warnings tr'
  end.

Fixpoint debugs (tr : list DialEvent) : list IP :=
  match tr with
  | [] => []
  | EvDebug ip :: tr' => ip :: debugs tr'
  | _ :: tr' => debugs tr'
  end.

(** A protector that refuses every descriptor. *)
Inductive refusingProtector := refusingProtectorInstance.

#[export] Instance refusingProtector_Protector : Protector refusingProtector :=
  fun r _ => (false, r).

Definition always_refusing_dialer (ips : list IP)
  : protectedDialer refusingProtector :=
  {| protector := refusingProtectorInstance;
     resolver := fun _ _ => (ips, None) |}.

Definition always_refused_run
  : DialResult * refusingProtector * list DialEvent :=
  Dial (fun _ => os_ok 7) (always_refusing_dialer two_addresses) (CallerCtx 1)
       None example_domain None.

(** A run in which every call succeeds, for a domain with two addresses. *)
Definition success_run : DialResult * noopProtector * list DialEvent :=
  Dial (fun _ => os_ok 7) (example_dialer two_addresses) (CallerCtx 1) None
       example_domain None.

Definition success_first : AttemptRec :=
  Eval vm_compute in first_attempt (trace success_run).

(** The log lines of one iteration. *)
Definition iteration_log (i : nat) (err : option error) (ip : IP)
  : list DialEvent :=
  match i, err with
  | S _, Some e => [EvWarn e; EvDebug ip]
  | _, _ => []
  end.

(** The warning expected on entry of iteration [i], and the debug lines
    expected from iteration [i] on when the candidates [l] are tried. *)
Definition entry_warning (i : nat) (err : option error) : list (option error) :=
  match i with
  | O => []
  | S _ => [err]
  end.

Definition entry_debugs (i : nat) (l : list IP) : list IP :=
  match i with
  | O => tl l
  | S _ => l
  end.

(** ** Tactics for the branches of [dial] *)

Ltac dial_unfold :=
  unfold dial, getFd, dial_return, defer, bind, ret, emit, panic,
    unix_Socket, protector_Protect, internet_ApplySockopt, unix_Connect,
    unix_Close, os_NewFile_, file_Close, net_FilePacketConn,
    net_ResolveUDPAddr, net_FileConn, Address_IP in *.

#[global] Arguments copy : simpl never.
#[global] Arguments int32 : simpl never.
#[global] Arguments uintptr : simpl never.

(** Follow the branches of [dial] in the goal, in the order of the code. *)
Ltac dial_path :=
  first
    [ match goal with
      | |- context [match Network_ ?d with _ => _ end] =>
          destruct (Network_ d) eqn:?
      end
    | match goal with
      | |- context [os_Socket ?o ?a ?b ?c] =>
          destruct (os_Socket o a b c) as [? [?|]] eqn:?
      end
    | match goal with
      | |- context [Protect ?p ?fd] =>
          destruct (Protect p fd) as [[|] ?] eqn:?
      end
    | match goal with
      | |- context [match ?so with Some _ => _ | None => _ end] =>
          is_var so; destruct so
      end
    | match goal with
      | |- context [os_Connect ?o ?fd ?sa] =>
          destruct (os_Connect o fd sa) as [?|] eqn:?
      end
    | match goal with
      | |- context [os_NewFile ?o ?fd] => destruct (os_NewFile o fd) eqn:?
      end
    | match goal with
      | |- context [os_FilePacketConn ?o ?f] =>
          destruct (os_FilePacketConn o f) as [?|?] eqn:?
      end
    | match goal with
      | |- context [os_ResolveUDPAddr ?o ?n ?a] =>
          destruct (os_ResolveUDPAddr o n a) as [?|?] eqn:?
      end
    | match goal with
      | |- context [os_FileConn ?o ?f] =>
          destruct (os_FileConn o f) as [?|?] eqn:?
      end ].

Ltac dial_paths := dial_unfold; cbn; repeat (dial_path; cbn).

(** * Theorems *)

(** ** The loop of [Dial] *)
Section Loop.
Context {P : Type} `{Protector P}.
Variable os : nat -> AttemptOS.
Variable ctx : Context.
Variable source : option Address.
Variable sockopt : option SocketConfig.

Local Abbreviation Run := (LoopRun os ctx source sockopt).
Local Abbreviation made := (made_in os ctx source sockopt).

Lemma LoopRun_set_Address d x i ips atts r :
  Run (set_Address d x) i ips atts r -> Run d i ips atts r.
Proof.
  induction 1.
  - apply LoopRun_stop; auto.
  - apply LoopRun_exhausted; auto.
  - apply LoopRun_next; auto.
Qed.

Lemma attempts_app (t1 t2 : list DialEvent) :
  attempts (t1 ++ t2) = attempts t1 ++ attempts t2.
Proof.
  induction t1 as [|e t1 IH]; simpl; [reflexivity|].
  destruct e; simpl; rewrite ?IH; reflexivity.
Qed.

Lemma resolver_calls_app (t1 t2 : list DialEvent) :
  resolver_calls (t1 ++ t2) = resolver_calls t1 ++ resolver_calls t2.
Proof.
  induction t1 as [|e t1 IH]; simpl; [reflexivity|].
  destruct e; simpl; rewrite ?IH; reflexivity.
Qed.

(** After the first iteration the loop breaks at once when the last call
    returned no error. *)
Lemma Dial_loop_break i ips d conn p :
  Dial_loop os ctx source sockopt (S i) ips d conn None p
  = (Done (conn, None), p, []).
Proof. destruct ips; reflexivity. Qed.

(** One iteration: the call of [dial], then the rest of the loop. *)
Lemma Dial_loop_body i ip rest d conn err p :
  (i = 0%nat \/ err <> None) ->
  exists pre,
    attempts pre = [] /\ resolver_calls pre = [] /\
    Dial_loop os ctx source sockopt i (ip :: rest) d conn err p
    = let d' := set_Address d (IPAddress ip) in
      match dial (os i) ctx source d' sockopt p with
      | (Done (c, e), p1, sys) =>
          match Dial_loop os ctx source sockopt (S i) rest d' c e p1 with
          | (r, p2, t2) =>
              (r, p2, pre ++ EvAttempt d' sys (Done (c, e)) :: t2)
          end
      | (Panicked msg, p1, sys) =>
          (Panicked msg, p1, pre ++ [EvAttempt d' sys (Panicked msg)])
      end.
Proof.
  intros Hi.
  destruct i as [|i].
  - exists []. repeat split.
    cbn [Dial_loop Nat.ltb Nat.leb]. unfold bind, dialer_dial.
    destruct (dial (os 0) ctx source (set_Address d (IPAddress ip)) sockopt p)
      as [[[[c e]|msg] p1] sys]; cbn; [|reflexivity].
    destruct (Dial_loop os ctx source sockopt 1 rest
                (set_Address d (IPAddress ip)) c e p1) as [[r p2] t2].
    reflexivity.
  - destruct err as [e0|]; [|destruct Hi; [discriminate|congruence]].
    exists [EvWarn e0; EvDebug ip]. repeat split.
    cbn [Dial_loop Nat.ltb Nat.leb].
    unfold bind, dialer_dial, logrus_Warn, logrus_Debug, emit.
    destruct (dial (os (S i)) ctx source (set_Address d (IPAddress ip))
                sockopt p) as [[[[c e]|msg] p1] sys]; cbn; [|reflexivity].
    destruct (Dial_loop os ctx source sockopt (S (S i)) rest
                (set_Address d (IPAddress ip)) c e p1) as [[r p2] t2].
    reflexivity.
Qed.

Lemma Dial_loop_run : forall ips i d conn err p r p' tr,
  (i = 0%nat \/ err <> None) ->
  ips <> [] ->
  Dial_loop os ctx source sockopt i ips d conn err p = (r, p', tr) ->
  Run d i ips (attempts tr) r /\ resolver_calls tr = [].
Proof.
  induction ips as [|ip rest IH]; intros i d conn err p r p' tr Hi Hne Hrun;
    [congruence|].
  destruct (Dial_loop_body ip rest d conn p Hi) as (pre & Hpre & Hres & Heq).
  rewrite Heq in Hrun; clear Heq. cbv zeta in Hrun.
  destruct (dial (os i) ctx source (set_Address d (IPAddress ip)) sockopt p)
    as [[[[c e]|msg] p1] sys] eqn:Hd.
  - destruct e as [e|].
    + destruct rest as [|ip2 rest2].
      * cbn in Hrun. inversion Hrun; subst; clear Hrun.
        rewrite attempts_app, resolver_calls_app, Hpre, Hres. cbn. split; auto.
        apply (@LoopRun_exhausted _ _ os ctx source sockopt d i ip
                 (set_Address d (IPAddress ip), sys, Done (c, Some e)));
          [reflexivity| |reflexivity].
        exists p; eexists; exact Hd.
      * destruct (Dial_loop os ctx source sockopt (S i) (ip2 :: rest2)
                    (set_Address d (IPAddress ip)) c (Some e) p1)
          as [[r2 p2] t2] eqn:Hl.
        inversion Hrun; subst; clear Hrun.
        apply IH in Hl; [|right; discriminate|discriminate].
        destruct Hl as [Hl Hr2].
        rewrite attempts_app, resolver_calls_app, Hpre, Hres. cbn.
        rewrite Hr2. split; auto.
        apply (@LoopRun_next _ _ os ctx source sockopt d i ip (ip2 :: rest2)
                 (set_Address d (IPAddress ip), sys, Done (c, Some e)));
          [reflexivity| |reflexivity|discriminate|].
        -- exists p; eexists; exact Hd.
        -- eapply LoopRun_set_Address. exact Hl.
    + rewrite Dial_loop_break in Hrun.
      inversion Hrun; subst; clear Hrun.
      rewrite attempts_app, resolver_calls_app, Hpre, Hres. cbn. split; auto.
      apply (@LoopRun_stop _ _ os ctx source sockopt d i ip rest
               (set_Address d (IPAddress ip), sys, Done (c, None)));
        [reflexivity| |reflexivity].
      exists p; eexists; exact Hd.
  - inversion Hrun; subst; clear Hrun.
    rewrite attempts_app, resolver_calls_app, Hpre, Hres. cbn. split; auto.
    apply (@LoopRun_stop _ _ os ctx source sockopt d i ip rest
             (set_Address d (IPAddress ip), sys, Panicked msg));
      [reflexivity| |reflexivity].
    exists p; eexists; exact Hd.
Qed.

Lemma LoopRun_length d i ips atts r :
  Run d i ips atts r ->
  (1 <= List.length atts /\ List.length atts <= List.length ips)%nat.
Proof.
  induction 1; cbn; try lia.
Qed.

(** What the relation says about the attempt number [j]. *)
Lemma LoopRun_nth d i ips atts r :
  Run d i ips atts r ->
  forall j a,
    nth_error atts j = Some a ->
    (exists ip, nth_error ips j = Some ip /\
                att_destination a = set_Address d (IPAddress ip)) /\
    made (i + j) a /\
    (S j = List.length atts -> r = att_result a) /\
    (att_failed a = false -> S j = List.length atts) /\
    (att_failed a = true ->
     (S j < List.length ips <-> S j < List.length atts)%nat).
Proof.
  induction 1 as [i ip rest a Hd Hm Hf | i ip a Hd Hm Hf
                 | i ip rest a atts r Hd Hm Hf Hne Hrun IH];
    intros j b Hj.
  - destruct j as [|j]; [|destruct j; discriminate].
    cbn in Hj. inversion Hj; subst b. rewrite Nat.add_0_r.
    repeat split; auto.
    + exists ip. split; [reflexivity|assumption].
    + congruence.
    + congruence.
  - destruct j as [|j]; [|destruct j; discriminate].
    cbn in Hj. inversion Hj; subst b. rewrite Nat.add_0_r.
    repeat split; auto; cbn; try lia.
    exists ip. split; [reflexivity|assumption].
  - pose proof (LoopRun_length Hrun) as Hlen.
    destruct j as [|j].
    + cbn in Hj. inversion Hj; subst b. rewrite Nat.add_0_r.
      repeat split; auto; cbn; try lia.
      * exists ip. split; [reflexivity|assumption].
      * congruence.
    + cbn in Hj. destruct (IH j b Hj) as (Hip & Hmade & Hlast & Hok & Hfail).
      replace (i + S j)%nat with (S i + j)%nat by lia.
      split; [exact Hip|]. split; [exact Hmade|].
      split; [|split]; cbn.
      * intros Hl. apply Hlast. lia.
      * intros Hb. apply Hok in Hb. lia.
      * intros Hb. apply Hfail in Hb. lia.
Qed.

(** The outcome of the loop is the outcome of its last call of [dial]. *)
Lemma LoopRun_last d i ips atts r :
  Run d i ips atts r ->
  exists a, nth_error atts (List.length atts - 1) = Some a /\
            r = att_result a.
Proof.
  intros Hrun. pose proof (LoopRun_length Hrun) as [Hl _].
  destruct (nth_error atts (List.length atts - 1)) as [a|] eqn:Hn.
  - exists a. split; [reflexivity|].
    destruct (LoopRun_nth Hrun _ Hn) as (_ & _ & Hlast & _).
    apply Hlast. lia.
  - apply nth_error_None in Hn. lia.
Qed.

Lemma LoopRun_destinations d i ips atts r :
  Run d i ips atts r ->
  map att_destination atts
  = map (fun ip => set_Address d (IPAddress ip))
        (firstn (List.length atts) ips).
Proof.
  induction 1; cbn; f_equal; assumption.
Qed.
End Loop.

(** ** Facts about one call of [dial] *)

Section Attempt.
Context {P : Type} `{Protector P}.
Variable o : AttemptOS.
Variable ctx : Context.
Variable source : option Address.
Variable sockopt : option SocketConfig.

(** [dial] returns when the destination holds an IP address. *)
Lemma dial_returns destination destIp p :
  Address_ destination = Some (AddrIP destIp) ->
  exists c e,
    outcome (dial o ctx source destination sockopt p) = Done (c, e).
Proof.
  intros Ha. unfold outcome. dial_unfold. rewrite Ha.
  dial_paths; eexists; eexists; reflexivity.
Qed.

(** When the protector refuses the descriptor, [dial] closes it and
    returns the error "protect failed", before any connect. *)
Lemma dial_protect_refused destination p :
  protect_refused (trace (dial o ctx source destination sockopt p)) = true ->
  outcome (dial o ctx source destination sockopt p)
  = Done (None, Some (errors_New "protect failed")) /\
  connected (trace (dial o ctx source destination sockopt p)) = false /\
  exists fd,
    created (trace (dial o ctx source destination sockopt p)) = [fd] /\
    closed (trace (dial o ctx source destination sockopt p)) = [fd] /\
    protect_answers (trace (dial o ctx source destination sockopt p))
    = [(int32 fd, false)].
Proof.
  unfold outcome, trace. dial_unfold.
  destruct (Address_ destination) as [[destIp|dom]|]; cbn;
    try discriminate.
  dial_paths; intros Hp; try discriminate Hp.
  all: repeat split; eexists; repeat split.
Qed.

(** A conversion failure other than that of [net.FilePacketConn] is the
    error [dial] returns. *)
Lemma dial_conversion_error destination p e :
  conversion_error (trace (dial o ctx source destination sockopt p))
  = Some e ->
  packet_conn_failed (trace (dial o ctx source destination sockopt p))
  = false ->
  outcome (dial o ctx source destination sockopt p) = Done (None, Some e) /\
  connected (trace (dial o ctx source destination sockopt p)) = true.
Proof.
  unfold outcome, trace. dial_unfold.
  destruct (Address_ destination) as [[destIp|dom]|]; cbn;
    try discriminate.
  dial_paths; intros He Hp; try discriminate He; try discriminate Hp.
  all: inversion He; subst; split; reflexivity.
Qed.

(** When [net.FilePacketConn] fails, [dial] returns neither a connection
    nor an error. *)
Lemma dial_packet_conn_failed destination p :
  packet_conn_failed (trace (dial o ctx source destination sockopt p))
  = true ->
  outcome (dial o ctx source destination sockopt p) = Done (None, None) /\
  Network_ destination = Network_UDP /\
  connected (trace (dial o ctx source destination sockopt p)) = true /\
  exists e,
    conversion_error (trace (dial o ctx source destination sockopt p))
    = Some e.
Proof.
  unfold outcome, trace. dial_unfold.
  destruct (Address_ destination) as [[destIp|dom]|]; cbn;
    try discriminate.
  dial_paths; intros Hp; try discriminate Hp.
  all: repeat split; eexists; reflexivity.
Qed.

(** The only context [dial] hands out is its own timeout context, and it
    hands it to the socket options alone. *)
Lemma dial_contexts destination p :
  let run := dial o ctx source destination sockopt p in
  Forall (fun c => c = dial_timeout_ctx) (sys_contexts (trace run)) /\
  forallb (fun e => implb (under_timeout e) (is_sockopt e)) (trace run)
  = true /\
  forallb (fun e => implb (is_connect e) (negb (under_timeout e)))
          (trace run) = true /\
  forallb (fun e => implb (is_sockopt e) (under_timeout e)) (trace run)
  = true.
Proof.
  intros run. subst run. unfold trace. dial_unfold.
  destruct (Address_ destination) as [[destIp|dom]|]; cbn.
  2, 3: repeat split; constructor.
  dial_paths.
  all: repeat split; repeat constructor.
Qed.
End Attempt.

(** ** Facts about [Dial] *)

Lemma IPAddress_valid ip :
  valid_ip ip = true -> exists x, IPAddress ip = Some (AddrIP x).
Proof.
  unfold valid_ip, IPAddress. intros Hv.
  destruct (Nat.eqb (List.length ip) IPv4len); [eexists; reflexivity|].
  cbn in Hv. rewrite Hv.
  match goal with |- context [if ?b then _ else _] => destruct b end;
    eexists; reflexivity.
Qed.

Section DialFacts.
Context {P : Type} `{Protector P}.
Variable os : nat -> AttemptOS.
Variable dialer : protectedDialer P.
Variable ctx : Context.
Variable source : option Address.
Variable destination : Destination.
Variable sockopt : option SocketConfig.

Local Abbreviation run := (Dial os dialer ctx source destination sockopt).

(** With candidates, [Dial] is its loop over them, after the resolver
    call if the destination is a domain. *)
Lemma Dial_run ips :
  has_candidates dialer ctx destination ips ->
  LoopRun os ctx source sockopt destination 0 ips
          (attempts (trace run)) (outcome run) /\
  Forall (fun c => fst c = ctx) (resolver_calls (trace run)) /\
  (forall ip, Address_ destination = Some (AddrIP ip) ->
              resolver_calls (trace run) = []).
Proof.
  intros [Hn Ha]. unfold Dial, Dial_body.
  replace (Network_eqb (Network_ destination) Network_Unknown) with false
    by (destruct (Network_ destination); [congruence|reflexivity..]).
  destruct (Address_ destination) as [[ip|domain]|] eqn:Haddr;
    [| |contradiction]; cbv beta iota.
  - assert (Hfam : IsDomain (Family (AddrIP ip)) = false)
      by (unfold Family; destruct (Nat.eqb (List.length ip) IPv4len);
          reflexivity).
    rewrite Hfam. cbn -[Dial_loop]. subst ips. unfold bind, ret.
    destruct (Dial_loop os ctx source sockopt 0 [ip] destination None None
                (protector dialer)) as [[r p'] tr] eqn:Hl.
    apply Dial_loop_run in Hl; [|left; reflexivity|discriminate].
    destruct Hl as [Hl Hr]. cbn. rewrite Hr.
    split; [exact Hl|]. split; [constructor|reflexivity].
  - destruct Ha as [Hres Hne]. cbn -[Dial_loop].
    unfold bind, ret, dialer_resolver, emit. rewrite Hres. cbn -[Dial_loop].
    destruct ips as [|ip0 rest]; [congruence|]. cbn [List.length Nat.eqb].
    destruct (Dial_loop os ctx source sockopt 0 (ip0 :: rest) destination
                None None (protector dialer)) as [[r p'] tr] eqn:Hl.
    apply Dial_loop_run in Hl; [|left; reflexivity|discriminate].
    destruct Hl as [Hl Hr]. cbn. rewrite Hr.
    split; [exact Hl|]. split; [repeat constructor|discriminate].
Qed.

(** After an attempt that returned an error, [Dial] tries the next
    candidate if there is one, and returns that error if there is
    none. *)
Lemma Dial_after_error ips j a c e :
  has_candidates dialer ctx destination ips ->
  nth_error (attempts (trace run)) j = Some a ->
  att_result a = Done (c, Some e) ->
  ((S j < List.length ips)%nat ->
   exists b ip,
     nth_error (attempts (trace run)) (S j) = Some b /\
     nth_error ips (S j) = Some ip /\
     att_destination b = set_Address destination (IPAddress ip)) /\
  (S j = List.length ips ->
   S j = List.length (attempts (trace run)) /\
   outcome run = Done (c, Some e)).
Proof.
  intros Hc Hj Hr.
  destruct (Dial_run Hc) as (Hrun & _).
  pose proof (LoopRun_length Hrun) as [Hl1 Hl2].
  destruct (LoopRun_nth Hrun _ Hj) as (_ & _ & Hlast & _ & Hfail).
  assert (Hf : att_failed a = true) by (unfold att_failed; rewrite Hr; reflexivity).
  specialize (Hfail Hf).
  assert (Hjlt : (j < List.length (attempts (trace run)))%nat)
    by (apply nth_error_Some; congruence).
  split.
  - intros Hlt. apply Hfail in Hlt.
    destruct (nth_error (attempts (trace run)) (S j)) as [b|] eqn:Hb;
      [|apply nth_error_None in Hb; lia].
    destruct (LoopRun_nth Hrun _ Hb) as ((ip & Hip & Hd) & _).
    exists b, ip. auto.
  - intros Heq.
    assert (Hla : S j = List.length (attempts (trace run))) by lia.
    split; [exact Hla|]. rewrite (Hlast Hla). exact Hr.
Qed.

(** A call of [dial] that returns no error, or panics, is the last one
    and gives the outcome of [Dial]. *)
Lemma Dial_after_success ips j a :
  has_candidates dialer ctx destination ips ->
  nth_error (attempts (trace run)) j = Some a ->
  att_failed a = false ->
  S j = List.length (attempts (trace run)) /\
  outcome run = att_result a.
Proof.
  intros Hc Hj Hf.
  destruct (Dial_run Hc) as (Hrun & _).
  destruct (LoopRun_nth Hrun _ Hj) as (_ & _ & Hlast & Hok & _).
  split; auto.
Qed.

(** The resolver, when it is called, is given the context of the
    caller. *)
Lemma Dial_resolver_ctx :
  Forall (fun c => fst c = ctx) (resolver_calls (trace run)).
Proof.
  destruct (Network_eqb (Network_ destination) Network_Unknown) eqn:Hu.
  { unfold Dial, Dial_body. rewrite Hu. constructor. }
  assert (Hn : Network_ destination <> Network_Unknown)
    by (intros E; rewrite E in Hu; discriminate).
  destruct (Address_ destination) as [[ip|domain]|] eqn:Ha.
  - eapply (@Dial_run [ip]). split; [exact Hn|]. rewrite Ha. reflexivity.
  - destruct (resolver dialer ctx domain) as [ips err] eqn:Hr.
    destruct err as [e|]; [|destruct ips as [|ip0 rest]].
    + unfold Dial, Dial_body. rewrite Hu, Ha. cbn -[Dial_loop].
      unfold bind, ret, dialer_resolver, emit. rewrite Hr.
      repeat constructor.
    + unfold Dial, Dial_body. rewrite Hu, Ha. cbn -[Dial_loop].
      unfold bind, ret, dialer_resolver, emit. rewrite Hr.
      repeat constructor.
    + eapply (@Dial_run (ip0 :: rest)). split; [exact Hn|].
      rewrite Ha. split; [exact Hr|discriminate].
  - unfold Dial, Dial_body. rewrite Ha. cbn. rewrite orb_true_r.
    constructor.
Qed.

(** What an attempt in the trace of [Dial] records is a call of
    [dial]. *)
Lemma Dial_attempt_made ips j a :
  has_candidates dialer ctx destination ips ->
  nth_error (attempts (trace run)) j = Some a ->
  made_in os ctx source sockopt j a.
Proof.
  intros Hc Hj.
  destruct (Dial_run Hc) as (Hrun & _).
  destruct (LoopRun_nth Hrun _ Hj) as (_ & Hm & _). exact Hm.
Qed.
End DialFacts.

(** * The claims *)

(** C9.  When the destination has the unknown network kind or a nil
    address, [Dial] panics with "connect to invalid destination": it
    returns nothing, the trace is empty (no resolver call, no attempt, no
    socket) and the protector is untouched. *)
Theorem Dial_invalid_destination_panics :
  forall (P : Type) (HP : Protector P) (os : nat -> AttemptOS)
         (dialer : protectedDialer P) ctx source destination sockopt,
    Network_ destination = Network_Unknown \/ Address_ destination = None ->
    Dial os dialer ctx source destination sockopt
    = (Panicked "connect to invalid destination", protector dialer, []).
Proof.
  intros P HP os dialer ctx source destination sockopt [Hn|Ha];
    unfold Dial, Dial_body.
  - rewrite Hn. reflexivity.
  - rewrite Ha. cbn. rewrite orb_true_r. reflexivity.
Qed.

Lemma Dial_invalid_destination_panics_witness :
  Dial (fun _ => os_ok 7) (example_dialer two_addresses) (CallerCtx 1) None
       {| Address_ := Some (AddrDomain "example.test"); Port := 443;
          Network_ := Network_Unknown |} None
  = (Panicked "connect to invalid destination", noopProtectorInstance, []).
Proof.
  apply Dial_invalid_destination_panics. left. reflexivity.
Defined.

(** C2.  For a domain destination: if the resolver returns an error,
    [Dial] returns that error, and if the resolver returns no error and no
    address, [Dial] returns [dns.ErrEmptyResponse]; in both cases the trace
    is the resolver call alone, so there is no attempt and no socket. *)
Theorem Dial_resolution_failure_no_attempt :
  forall (P : Type) (HP : Protector P) (os : nat -> AttemptOS)
         (dialer : protectedDialer P) ctx source destination sockopt domain,
    Network_ destination <> Network_Unknown ->
    Address_ destination = Some (AddrDomain domain) ->
    (forall ips e,
        resolver dialer ctx domain = (ips, Some e) ->
        Dial os dialer ctx source destination sockopt
        = (Done (None, Some e), protector dialer,
           [EvResolve ctx domain (ips, Some e)])) /\
    (resolver dialer ctx domain = ([], None) ->
     Dial os dialer ctx source destination sockopt
     = (Done (None, Some dns_ErrEmptyResponse), protector dialer,
        [EvResolve ctx domain ([], None)])) /\
    (forall ips err,
        resolver dialer ctx domain = (ips, err) ->
        err <> None \/ ips = [] ->
        attempts (trace (Dial os dialer ctx source destination sockopt)) = []).
Proof.
  intros P HP os dialer ctx source destination sockopt domain Hn Ha.
  assert (Hu : Network_eqb (Network_ destination) Network_Unknown = false)
    by (destruct (Network_ destination); [congruence|reflexivity..]).
  unfold Dial, Dial_body. rewrite Hu, Ha. cbn -[Dial_loop].
  unfold bind, ret, dialer_resolver, emit.
  split; [|split].
  - intros ips e Hr. rewrite Hr. reflexivity.
  - intros Hr. rewrite Hr. reflexivity.
  - intros ips err Hr Hor. rewrite Hr. cbn -[Dial_loop].
    destruct err as [e|]; [reflexivity|].
    destruct Hor as [Hor|Hor]; [congruence|]. subst ips. reflexivity.
Qed.

Lemma Dial_resolution_failure_no_attempt_witness :
  Dial (fun _ => os_ok 7) failing_dialer (CallerCtx 1) None example_domain None
  = (Done (None, Some (ExtError "no such host")), noopProtectorInstance,
     [EvResolve (CallerCtx 1) "example.test"
                ([], Some (ExtError "no such host"))])
  /\
  Dial (fun _ => os_ok 7) (example_dialer []) (CallerCtx 1) None
       example_domain None
  = (Done (None, Some dns_ErrEmptyResponse), noopProtectorInstance,
     [EvResolve (CallerCtx 1) "example.test" ([], None)]).
Proof.
  split.
  - apply (proj1 (@Dial_resolution_failure_no_attempt noopProtector _
                    (fun _ => os_ok 7) failing_dialer (CallerCtx 1) None
                    example_domain None "example.test"
                    ltac:(discriminate) eq_refl)).
    reflexivity.
  - apply (proj1 (proj2 (@Dial_resolution_failure_no_attempt noopProtector _
                    (fun _ => os_ok 7) (example_dialer []) (CallerCtx 1) None
                    example_domain None "example.test"
                    ltac:(discriminate) eq_refl))).
    reflexivity.
Defined.

(** C7.  For a destination that holds an IP address (and has a known
    network kind), the resolver is not called and [dial] is called exactly
    once, for that address; [Dial] ends as that call ends. *)
Theorem Dial_literal_ip_single_attempt :
  forall (P : Type) (HP : Protector P) (os : nat -> AttemptOS)
         (dialer : protectedDialer P) ctx source destination sockopt ip,
    Network_ destination <> Network_Unknown ->
    Address_ destination = Some (AddrIP ip) ->
    let run := Dial os dialer ctx source destination sockopt in
    resolver_calls (trace run) = [] /\
    List.length (attempts (trace run)) = 1%nat /\
    exists sys,
      trace run
      = [EvAttempt (set_Address destination (IPAddress ip)) sys (outcome run)].
Proof.
  intros P HP os dialer ctx source destination sockopt ip Hn Ha run.
  subst run.
  assert (Hu : Network_eqb (Network_ destination) Network_Unknown = false)
    by (destruct (Network_ destination); [congruence|reflexivity..]).
  assert (Hfam : IsDomain (Family (AddrIP ip)) = false)
    by (unfold Family; destruct (Nat.eqb (List.length ip) IPv4len);
        reflexivity).
  unfold Dial, Dial_body. rewrite Hu, Ha. cbv beta iota.
  rewrite Hfam. cbn. unfold bind, ret, dialer_dial.
  destruct (dial (os 0%nat) ctx source (set_Address destination (IPAddress ip))
              sockopt (protector dialer)) as [[[[c e]|msg] p1] sys];
    cbn; repeat split; eexists; reflexivity.
Qed.

Lemma Dial_literal_ip_single_attempt_witness :
  resolver_calls (trace packet_failure_run) = [] /\
  List.length (attempts (trace packet_failure_run)) = 1%nat.
Proof.
  pose proof (@Dial_literal_ip_single_attempt noopProtector _
                (fun _ => os_wrap_fails 7) (example_dialer []) (CallerCtx 1)
                None datagram_destination None ip_10_0_0_1
                ltac:(discriminate) eq_refl) as (Hr & Hl & _).
  split; [exact Hr|exact Hl].
Defined.

(** C1.  For a domain destination whose resolver returns the addresses
    [ips] (not empty, no error), the calls of [dial] are for a prefix of
    [ips], in the order of [ips]; a call that returns no error is the last
    one; after a call that returns an error the next address is tried; the
    outcome of [Dial] is the outcome of its last call of [dial]; when every
    call failed, all addresses were tried and [Dial] returns the error of
    the call for the last address.  With well-formed addresses [Dial]
    returns. *)
Theorem Dial_tries_addresses_in_order :
  forall (P : Type) (HP : Protector P) (os : nat -> AttemptOS)
         (dialer : protectedDialer P) ctx source destination sockopt
         domain ips,
    Network_ destination <> Network_Unknown ->
    Address_ destination = Some (AddrDomain domain) ->
    resolver dialer ctx domain = (ips, None) ->
    ips <> [] ->
    let run := Dial os dialer ctx source destination sockopt in
    let atts := attempts (trace run) in
    (1 <= List.length atts /\ List.length atts <= List.length ips)%nat /\
    map att_destination atts
    = map (fun ip => set_Address destination (IPAddress ip))
          (firstn (List.length atts) ips) /\
    (forall j a, nth_error atts j = Some a -> att_failed a = false ->
                 S j = List.length atts) /\
    (forall j a, nth_error atts j = Some a -> att_failed a = true ->
                 (S j < List.length ips)%nat ->
                 (S j < List.length atts)%nat) /\
    (exists a, nth_error atts (List.length atts - 1) = Some a /\
               outcome run = att_result a) /\
    (forallb att_failed atts = true ->
     List.length atts = List.length ips /\
     exists a c e,
       nth_error atts (List.length ips - 1) = Some a /\
       att_result a = Done (c, Some e) /\
       outcome run = Done (c, Some e)) /\
    (forallb valid_ip ips = true ->
     exists c e, outcome run = Done (c, e)).
Proof.
  intros P HP os dialer ctx source destination sockopt domain ips
         Hn Ha Hres Hne run atts.
  assert (Hc : has_candidates dialer ctx destination ips)
    by (split; [assumption|rewrite Ha; split; assumption]).
  destruct (Dial_run os source sockopt Hc) as (Hrun & _).
  fold run in Hrun. fold atts in Hrun.
  pose proof (LoopRun_length Hrun) as Hlen.
  destruct (LoopRun_last Hrun) as (l & Hl & Hout).
  destruct (LoopRun_nth Hrun _ Hl)
    as ((lip & Hlip & Hldest) & Hlmade & _ & _ & Hlfail).
  split; [exact Hlen|].
  split; [exact (LoopRun_destinations Hrun)|].
  split; [|split; [|split; [|split]]].
  - intros j a Hj Hok.
    destruct (LoopRun_nth Hrun _ Hj) as (_ & _ & _ & H4 & _). auto.
  - intros j a Hj Hf Hlt.
    destruct (LoopRun_nth Hrun _ Hj) as (_ & _ & _ & _ & H5).
    apply H5; assumption.
  - exists l. split; assumption.
  - intros Hall.
    assert (Hf : att_failed l = true).
    { rewrite forallb_forall in Hall. apply Hall.
      eapply nth_error_In. exact Hl. }
    specialize (Hlfail Hf).
    assert (Heq : List.length atts = List.length ips) by lia.
    split; [exact Heq|].
    unfold att_failed in Hf.
    destruct (att_result l) as [[c [e|]]|msg] eqn:Hr; try discriminate.
    exists l, c, e. rewrite <- Heq. auto.
  - intros Hv.
    assert (Hvl : valid_ip lip = true).
    { rewrite forallb_forall in Hv. apply Hv.
      eapply nth_error_In. exact Hlip. }
    destruct (IPAddress_valid _ Hvl) as (x & Hx).
    destruct Hlmade as (p & p' & Hd).
    assert (Haddr : Address_ (att_destination l) = Some (AddrIP x))
      by (rewrite Hldest; exact Hx).
    destruct (dial_returns (os (0 + (List.length atts - 1))%nat) ctx source
                sockopt (att_destination l) p Haddr) as (c & e & Hce).
    rewrite Hd in Hce. cbn in Hce.
    exists c, e. rewrite Hout. exact Hce.
Qed.

Lemma Dial_tries_addresses_in_order_witness :
  map att_destination (attempts (trace fallback_run))
  = [set_Address example_domain (IPAddress ip_10_0_0_1);
     set_Address example_domain (IPAddress ip_10_0_0_2)]
  /\
  exists a, nth_error (attempts (trace fallback_run)) 1 = Some a /\
            outcome fallback_run = att_result a.
Proof.
  pose proof (@Dial_tries_addresses_in_order noopProtector _
                os_first_unreachable (example_dialer two_addresses)
                (CallerCtx 1) None example_domain None "example.test"
                two_addresses ltac:(discriminate) eq_refl eq_refl
                ltac:(discriminate)) as (_ & Hd & _ & _ & Hl & _).
  split; [exact Hd|exact Hl].
Defined.

(** C3.  In a call of [dial] for an IP address [destIp], the socket is made
    once, with family [AF_INET] when [destIp] has exactly 4 bytes and
    [AF_INET6] for any other length, and with type and protocol by kind:
    stream and TCP for the TCP kind, datagram and UDP for the UDP kind,
    stream and protocol 0 for the unix kind.  For any other kind [dial]
    returns the error "unknow network" and makes no call, so no socket. *)
Theorem dial_socket_family_and_type :
  forall (P : Type) (HP : Protector P) (o : AttemptOS) ctx source
         destination sockopt destIp (p : P),
    Address_ destination = Some (AddrIP destIp) ->
    let run := dial o ctx source destination sockopt p in
    let af := if Nat.eqb (List.length destIp) IPv4len
              then AF_INET else AF_INET6 in
    match Network_ destination with
    | Network_TCP => socket_calls (trace run) = [(af, SOCK_STREAM, IPPROTO_TCP)]
    | Network_UDP => socket_calls (trace run) = [(af, SOCK_DGRAM, IPPROTO_UDP)]
    | Network_UNIX => socket_calls (trace run) = [(af, SOCK_STREAM, 0)]
    | _ => run = (Done (None, Some (fmt_Errorf "unknow network")), p, [])
    end.
Proof.
  intros P HP o ctx source destination sockopt destIp p Ha run af.
  subst run af. unfold trace.
  dial_unfold. rewrite Ha. cbn. unfold IPv4len.
  destruct (Nat.eqb (List.length destIp) 4) eqn:Hlen.
  all: dial_paths; reflexivity.
Qed.

Lemma dial_socket_family_and_type_witness :
  socket_calls (trace sockopt_run) = [(AF_INET, SOCK_STREAM, IPPROTO_TCP)].
Proof.
  exact (@dial_socket_family_and_type noopProtector _ (os_ok 7) (CallerCtx 1)
           None (example_destination Network_TCP (AddrIP ip_10_0_0_1))
           (Some {| Mark := 255 |}) ip_10_0_0_1 noopProtectorInstance eq_refl).
Defined.

(** C5, as stated, fails: an attempt in which [unix.Socket] fails calls
    it once and creates no descriptor, so "exactly one descriptor is
    created" does not hold for it. *)
Lemma dial_socket_failure_creates_no_descriptor :
  outcome socket_failure_run = Done (None, Some (Errno EMFILE)) /\
  socket_calls (trace socket_failure_run)
  = [(AF_INET, SOCK_STREAM, IPPROTO_TCP)] /\
  created (trace socket_failure_run) = [] /\
  List.length (created (trace socket_failure_run)) <> 1%nat.
Proof.
  repeat split. cbn. discriminate.
Qed.

(** C5, amended.  An attempt calls [unix.Socket] at most once and creates
    at most one descriptor.  When [os.NewFile] gives a file, a created
    descriptor is closed exactly once before [dial] returns; and when
    [dial] returns a connection, it returns no error, a descriptor was
    created, and exactly one connection object was made from the file of
    that descriptor: the one inside the connection returned. *)
Theorem dial_descriptor_closed_or_wrapped :
  forall (P : Type) (HP : Protector P) (o : AttemptOS) ctx source
         destination sockopt (p : P),
    (forall fd, os_NewFile o fd = true) ->
    let run := dial o ctx source destination sockopt p in
    (List.length (socket_calls (trace run)) <= 1)%nat /\
    (List.length (created (trace run)) <= 1)%nat /\
    (forall fd, In fd (created (trace run)) ->
                created (trace run) = [fd] /\ closed (trace run) = [fd]) /\
    (forall conn err, outcome run = Done (Some conn, err) ->
                      err = None /\
                      exists fd, created (trace run) = [fd] /\
                                 closed (trace run) = [fd] /\
                                 wrappers (trace run)
                                 = [(fd, conn_wrapped conn)]).
Proof.
  intros P HP o ctx source destination sockopt p Hnf run.
  subst run. unfold outcome, trace. dial_unfold.
  destruct (Address_ destination) as [[destIp|dom]|]; cbn.
  2, 3: repeat split; try lia; try contradiction; intros; discriminate.
  dial_paths;
    try match goal with
        | E : os_NewFile _ _ = false |- _ => rewrite Hnf in E; discriminate E
        end;
    (split; [cbn; lia|]); (split; [cbn; lia|]);
    (split;
     [ intros fd0 Hin; try contradiction;
       destruct Hin as [<-|[]]; split; reflexivity
     | intros conn err Hc; try discriminate Hc ]).
  all: inversion Hc; subst; split; [reflexivity|].
  all: eexists; repeat split.
Qed.

Lemma dial_descriptor_closed_or_wrapped_witness :
  created (trace sockopt_run) = [7] /\ closed (trace sockopt_run) = [7] /\
  wrappers (trace sockopt_run) = [(7, WrappedStream {| nc_id := 107 |})].
Proof.
  pose proof (@dial_descriptor_closed_or_wrapped noopProtector _ (os_ok 7)
                (CallerCtx 1) None
                (example_destination Network_TCP (AddrIP ip_10_0_0_1))
                (Some {| Mark := 255 |}) noopProtectorInstance
                (fun _ => eq_refl)) as (_ & _ & _ & Hs).
  destruct (Hs (FileConn_conn {| nc_id := 107 |}) None eq_refl)
    as (_ & fd & Hc & Hcl & Hw).
  assert (Hfd : fd = 7) by (cbn in Hc; congruence).
  subst fd. repeat split; assumption.
Defined.

(** C6.  In a run of [Dial] with candidates [ips], take an attempt in
    which the protector refused the descriptor.  The descriptor that was
    created is closed, nothing is connected, and the attempt returns the
    error "protect failed".  If a candidate is left, [dial] is called for
    the next candidate and the value of [Dial] is that of a later attempt;
    if none is left, [Dial] returns this error. *)
Theorem protect_failure_ends_only_its_attempt :
  forall (P : Type) (HP : Protector P) (os : nat -> AttemptOS)
         (dialer : protectedDialer P) ctx source destination sockopt ips j a,
    has_candidates dialer ctx destination ips ->
    let run := Dial os dialer ctx source destination sockopt in
    let atts := attempts (trace run) in
    nth_error atts j = Some a ->
    protect_refused (att_sys a) = true ->
    (exists fd, created (att_sys a) = [fd] /\ closed (att_sys a) = [fd] /\
                protect_answers (att_sys a) = [(int32 fd, false)]) /\
    connected (att_sys a) = false /\
    att_result a = Done (None, Some (errors_New "protect failed")) /\
    ((S j < List.length ips)%nat ->
     (exists b ip, nth_error atts (S j) = Some b /\
                   nth_error ips (S j) = Some ip /\
                   att_destination b
                   = set_Address destination (IPAddress ip)) /\
     (exists l, nth_error atts (List.length atts - 1) = Some l /\
                (j < List.length atts - 1)%nat /\
                outcome run = att_result l)) /\
    (S j = List.length ips ->
     S j = List.length atts /\
     outcome run = Done (None, Some (errors_New "protect failed"))).
Proof.
  intros P HP os dialer ctx source destination sockopt ips j a Hc run atts
         Hj Hp.
  destruct (@Dial_attempt_made _ _ os dialer ctx source destination sockopt
              ips j a Hc Hj) as (p & p' & Hd).
  pose proof (@dial_protect_refused _ _ (os j) ctx source sockopt
                (att_destination a) p) as Hpr.
  rewrite Hd in Hpr. cbn [trace outcome fst snd] in Hpr.
  destruct (Hpr Hp) as (Hres & Hconn & fd & Hcr & Hcl & Hans).
  destruct (@Dial_after_error _ _ os dialer ctx source destination sockopt
              ips j a _ _ Hc Hj Hres) as (Hnext & Hlast).
  split; [exists fd; auto|].
  split; [exact Hconn|]. split; [exact Hres|]. split; [|exact Hlast].
  intros Hlt. destruct (Hnext Hlt) as (b & ip & Hb & Hip & Hdest).
  split; [exists b, ip; auto|].
  destruct (Dial_run os source sockopt Hc) as (Hrun & _).
  destruct (LoopRun_last Hrun) as (l & Hl & Hout).
  exists l. split; [exact Hl|]. split; [|exact Hout].
  assert (S j < List.length atts)%nat
    by (apply nth_error_Some; unfold atts, run; congruence).
  lia.
Qed.

Lemma protect_failure_ends_only_its_attempt_witness :
  exists b,
    nth_error (attempts (trace refused_run)) 1 = Some b /\
    att_destination b = set_Address example_domain (IPAddress ip_10_0_0_2).
Proof.
  assert (Hc : has_candidates (refusing_dialer two_addresses) (CallerCtx 1)
                 example_domain two_addresses)
    by (split; [discriminate|split; [reflexivity|discriminate]]).
  assert (Hj : nth_error (attempts (trace refused_run)) 0 = Some refused_first)
    by (vm_compute; reflexivity).
  assert (Hp : protect_refused (att_sys refused_first) = true)
    by (vm_compute; reflexivity).
  pose proof (@protect_failure_ends_only_its_attempt (list bool) _
                (fun _ => os_ok 7) (refusing_dialer two_addresses)
                (CallerCtx 1) None example_domain None two_addresses 0%nat
                refused_first Hc Hj Hp) as (_ & _ & _ & Hnext & _).
  assert (Hlt : (1 < List.length two_addresses)%nat) by (cbn; lia).
  destruct (Hnext Hlt) as ((b & ip & Hb & Hip & Hd) & _).
  exists b. split; [exact Hb|].
  inversion Hip; subst ip. exact Hd.
Defined.

(** C4, as stated, fails: the first candidate is connected and then
    [net.FileConn] fails; [Dial] goes on to the second candidate and
    returns its connection, not the error of the conversion. *)
Lemma conversion_failure_is_retried :
  map (fun a => (connected (att_sys a), conversion_error (att_sys a),
                 att_result a))
      (attempts (trace wrap_failure_run))
  = [(true, Some (Errno EMFILE), Done (None, Some (Errno EMFILE)));
     (true, None, Done (Some (FileConn_conn {| nc_id := 108 |}), None))] /\
  outcome wrap_failure_run
  = Done (Some (FileConn_conn {| nc_id := 108 |}), None) /\
  outcome wrap_failure_run <> Done (None, Some (Errno EMFILE)).
Proof.
  repeat split. cbn. discriminate.
Qed.

(** C4, amended.  In a run of [Dial] with candidates [ips], take an
    attempt whose conversion of the descriptor failed with error [e] in
    [os.NewFile], [net.ResolveUDPAddr] or [net.FileConn].  The connect of
    that attempt had succeeded and the attempt returns [e].  That ends only
    this attempt: if a candidate is left, [dial] is called for the next
    one; if none is left, [Dial] returns [e]. *)
Theorem conversion_error_ends_only_its_attempt :
  forall (P : Type) (HP : Protector P) (os : nat -> AttemptOS)
         (dialer : protectedDialer P) ctx source destination sockopt ips
         j a e,
    has_candidates dialer ctx destination ips ->
    let run := Dial os dialer ctx source destination sockopt in
    let atts := attempts (trace run) in
    nth_error atts j = Some a ->
    conversion_error (att_sys a) = Some e ->
    packet_conn_failed (att_sys a) = false ->
    connected (att_sys a) = true /\
    att_result a = Done (None, Some e) /\
    ((S j < List.length ips)%nat ->
     exists b ip, nth_error atts (S j) = Some b /\
                  nth_error ips (S j) = Some ip /\
                  att_destination b
                  = set_Address destination (IPAddress ip)) /\
    (S j = List.length ips ->
     S j = List.length atts /\ outcome run = Done (None, Some e)).
Proof.
  intros P HP os dialer ctx source destination sockopt ips j a e Hc run atts
         Hj He Hp.
  destruct (@Dial_attempt_made _ _ os dialer ctx source destination sockopt
              ips j a Hc Hj) as (p & p' & Hd).
  pose proof (@dial_conversion_error _ _ (os j) ctx source sockopt
                (att_destination a) p e) as Hce.
  rewrite Hd in Hce. cbn [trace outcome fst snd] in Hce.
  destruct (Hce He Hp) as (Hres & Hconn).
  destruct (@Dial_after_error _ _ os dialer ctx source destination sockopt
              ips j a _ _ Hc Hj Hres) as (Hnext & Hlast).
  auto.
Qed.

Lemma conversion_error_ends_only_its_attempt_witness :
  exists b,
    nth_error (attempts (trace wrap_failure_run)) 1 = Some b /\
    att_destination b = set_Address example_domain (IPAddress ip_10_0_0_2).
Proof.
  assert (Hc : has_candidates (example_dialer two_addresses) (CallerCtx 1)
                 example_domain two_addresses)
    by (split; [discriminate|split; [reflexivity|discriminate]]).
  assert (Hj : nth_error (attempts (trace wrap_failure_run)) 0
               = Some wrap_failure_first)
    by (vm_compute; reflexivity).
  assert (He : conversion_error (att_sys wrap_failure_first)
               = Some (Errno EMFILE))
    by (vm_compute; reflexivity).
  assert (Hp : packet_conn_failed (att_sys wrap_failure_first) = false)
    by (vm_compute; reflexivity).
  pose proof (@conversion_error_ends_only_its_attempt noopProtector _
                os_first_wrap_fails (example_dialer two_addresses)
                (CallerCtx 1) None example_domain None two_addresses 0%nat
                wrap_failure_first (Errno EMFILE) Hc Hj He Hp)
    as (_ & _ & Hnext & _).
  assert (Hlt : (1 < List.length two_addresses)%nat) by (cbn; lia).
  destruct (Hnext Hlt) as (b & ip & Hb & Hip & Hd).
  exists b. split; [exact Hb|].
  inversion Hip; subst ip. exact Hd.
Defined.

(** C8, as stated, fails: in a successful attempt with socket options the
    options are applied under the timeout context, and the connect call is
    not: [unix.Connect] is given the descriptor and the address, and no
    context. *)
Lemma connect_runs_outside_the_timeout :
  existsb (fun e => is_sockopt e && under_timeout e) (trace sockopt_run)
  = true /\
  existsb (fun e => is_connect e && negb (under_timeout e)) (trace sockopt_run)
  = true /\
  forallb (fun e => implb (is_connect e) (under_timeout e)) (trace sockopt_run)
  = false.
Proof.
  repeat split.
Qed.

(** C8, amended.  An attempt does not depend on the context of the
    caller.  The only context an attempt hands out is a timeout of 10
    seconds below the background context; only the application of the
    socket options is given it, and every such application is; no connect
    call runs under it.  The context of the caller is what the resolver is
    given. *)
Theorem dial_timeout_reaches_socket_options_only :
  forall (P : Type) (HP : Protector P) (o : AttemptOS) (os : nat -> AttemptOS)
         (dialer : protectedDialer P) ctx ctx' source destination sockopt
         (p : P),
    let run := dial o ctx source destination sockopt p in
    dial o ctx' source destination sockopt p = run /\
    Forall (fun c => c = WithTimeout Background (10 * time_Second))
           (sys_contexts (trace run)) /\
    forallb (fun e => implb (under_timeout e) (is_sockopt e)) (trace run)
    = true /\
    forallb (fun e => implb (is_connect e) (negb (under_timeout e)))
            (trace run) = true /\
    forallb (fun e => implb (is_sockopt e) (under_timeout e)) (trace run)
    = true /\
    Forall (fun c => fst c = ctx)
           (resolver_calls
              (trace (Dial os dialer ctx source destination sockopt))).
Proof.
  intros P HP o os dialer ctx ctx' source destination sockopt p run.
  destruct (@dial_contexts _ _ o ctx source sockopt destination p)
    as (Hc & Hs & Hn & Hso).
  split; [reflexivity|]. split; [exact Hc|]. split; [exact Hs|].
  split; [exact Hn|]. split; [exact Hso|]. apply Dial_resolver_ctx.
Qed.

(** C10.  There is a datagram destination for which [Dial] returns no
    connection and no error: the attempt connects, [net.FilePacketConn]
    fails, and its error stays in the variable of the datagram case.  It
    is so for every attempt in which [net.FilePacketConn] fails, and [Dial]
    then stops with that outcome. *)
Theorem Dial_datagram_conversion_failure_nil_nil :
  (Network_ datagram_destination = Network_UDP /\
   attempts (trace packet_failure_run) = [packet_failure_first] /\
   connected (att_sys packet_failure_first) = true /\
   conversion_error (att_sys packet_failure_first) = Some (Errno EMFILE) /\
   outcome packet_failure_run = Done (None, None)) /\
  (forall (P : Type) (HP : Protector P) (os : nat -> AttemptOS)
          (dialer : protectedDialer P) ctx source destination sockopt ips
          j a,
      has_candidates dialer ctx destination ips ->
      let run := Dial os dialer ctx source destination sockopt in
      nth_error (attempts (trace run)) j = Some a ->
      packet_conn_failed (att_sys a) = true ->
      Network_ destination = Network_UDP /\
      connected (att_sys a) = true /\
      (exists e, conversion_error (att_sys a) = Some e) /\
      att_result a = Done (None, None) /\
      S j = List.length (attempts (trace run)) /\
      outcome run = Done (None, None)).
Proof.
  split.
  - repeat split.
  - intros P HP os dialer ctx source destination sockopt ips j a Hc run Hj Hp.
    destruct (@Dial_attempt_made _ _ os dialer ctx source destination sockopt
                ips j a Hc Hj) as (p & p' & Hd).
    pose proof (@dial_packet_conn_failed _ _ (os j) ctx source sockopt
                  (att_destination a) p) as Hpf.
    rewrite Hd in Hpf. cbn [trace outcome fst snd] in Hpf.
    destruct (Hpf Hp) as (Hres & Hnet & Hconn & He).
    assert (Hf : att_failed a = false)
      by (unfold att_failed; rewrite Hres; reflexivity).
    destruct (@Dial_after_success _ _ os dialer ctx source destination sockopt
                ips j a Hc Hj Hf) as (Hlast & Hout).
    destruct (Dial_run os source sockopt Hc) as (Hrun & _).
    destruct (LoopRun_nth Hrun _ Hj) as ((ip & _ & Hdest) & _).
    rewrite Hdest in Hnet. cbn in Hnet.
    repeat split; auto. exact (eq_trans Hout Hres).
Qed.

Lemma Dial_datagram_conversion_failure_nil_nil_witness :
  outcome packet_failure_run = Done (None, None) /\
  1%nat = List.length (attempts (trace packet_failure_run)).
Proof.
  assert (Hc : has_candidates (example_dialer []) (CallerCtx 1)
                 datagram_destination [ip_10_0_0_1])
    by (split; [discriminate|reflexivity]).
  assert (Hj : nth_error (attempts (trace packet_failure_run)) 0
               = Some packet_failure_first)
    by (vm_compute; reflexivity).
  assert (Hp : packet_conn_failed (att_sys packet_failure_first) = true)
    by (vm_compute; reflexivity).
  pose proof (proj2 Dial_datagram_conversion_failure_nil_nil noopProtector _
                (fun _ => os_wrap_fails 7) (example_dialer []) (CallerCtx 1)
                None datagram_destination None [ip_10_0_0_1] 0%nat
                packet_failure_first Hc Hj Hp)
    as (_ & _ & _ & _ & Hlast & Hout).
  split; [exact Hout|exact Hlast].
Defined.

(** * More about the dialer *)

(** ** One call of [dial] *)

Section AttemptMore.
Context {P : Type} `{Protector P}.
Variable o : AttemptOS.
Variable ctx : Context.
Variable source : option Address.
Variable sockopt : option SocketConfig.

Lemma copy_length n src : List.length (copy n src) = n.
Proof.
  unfold copy. rewrite length_app, repeat_length, length_firstn. lia.
Qed.

Lemma copy_exact n src : List.length src = n -> copy n src = src.
Proof.
  intros <-. unfold copy. rewrite firstn_all, Nat.sub_diag. cbn.
  apply app_nil_r.
Qed.

(** X1.  A connect call of [dial] is the only one of its attempt, it is made
    on the descriptor the attempt created, and the protector had accepted
    that descriptor (as an [int32]) before. *)
Theorem dial_connects_only_protected destination p fd sa :
  In (fd, sa) (connect_calls (trace (dial o ctx source destination sockopt p))) ->
  connect_calls (trace (dial o ctx source destination sockopt p)) = [(fd, sa)] /\
  created (trace (dial o ctx source destination sockopt p)) = [fd] /\
  protect_answers (trace (dial o ctx source destination sockopt p))
  = [(int32 fd, true)].
Proof.
  unfold trace. dial_unfold.
  destruct (Address_ destination) as [[destIp|dom]|]; cbn; try contradiction.
  dial_paths; intros Hin; try contradiction.
  all: destruct Hin as [Hin|[]]; inversion Hin; subst; repeat split.
Qed.

(** X2.  The calls of an attempt come in the order of the text of [dial] and
    each kind at most once: socket, protector, socket options, connect,
    file, connection from the file, peer address, close.  So the protector
    is asked before the options are applied and before the connect, and the
    descriptor is closed after all other calls. *)
Theorem dial_calls_in_order destination p :
  increasing (map call_rank (trace (dial o ctx source destination sockopt p)))
  = true.
Proof.
  unfold trace. dial_unfold.
  destruct (Address_ destination) as [[destIp|dom]|]; cbn; try reflexivity.
  dial_paths; reflexivity.
Qed.

(** X3.  The address [dial] connects to is the IP and the port of the
    destination, in the family of the socket: for 4 bytes an IPv4 address
    with these bytes on an [AF_INET] socket; otherwise an IPv6 address of
    16 bytes on an [AF_INET6] socket, the bytes of the IP cut after 16 or
    filled with zeros, and the IP itself when it has 16 bytes. *)
Theorem dial_connect_address destination destIp p fd sa :
  Address_ destination = Some (AddrIP destIp) ->
  In (fd, sa) (connect_calls (trace (dial o ctx source destination sockopt p))) ->
  (List.length destIp = 4%nat ->
   sa = SockaddrInet4 (Port destination) destIp /\
   map (fun c => fst (fst c))
       (socket_calls (trace (dial o ctx source destination sockopt p)))
   = [AF_INET]) /\
  (List.length destIp <> 4%nat ->
   sa = SockaddrInet6 (Port destination)
          (firstn 16 destIp ++ repeat x00 (16 - List.length destIp)) /\
   List.length (firstn 16 destIp ++ repeat x00 (16 - List.length destIp))
   = 16%nat /\
   map (fun c => fst (fst c))
       (socket_calls (trace (dial o ctx source destination sockopt p)))
   = [AF_INET6]) /\
  (List.length destIp = 16%nat ->
   sa = SockaddrInet6 (Port destination) destIp).
Proof.
  intros Ha. unfold trace. dial_unfold. rewrite Ha. cbn. unfold IPv4len.
  destruct (Nat.eqb (List.length destIp) 4) eqn:Hlen.
  - apply Nat.eqb_eq in Hlen.
    dial_paths; intros Hin; try contradiction.
    all: destruct Hin as [Hin|[]]; inversion Hin; subst.
    all: split; [intros _|split; intros Hx; [congruence|lia]].
    all: rewrite (@copy_exact 4 destIp Hlen); split; reflexivity.
  - apply Nat.eqb_neq in Hlen.
    dial_paths; intros Hin; try contradiction.
    all: destruct Hin as [Hin|[]]; inversion Hin; subst.
    all: split; [intros Hx; congruence|split].
    all: try (intros _; split; [reflexivity|split; [exact (@copy_length 16 destIp)|reflexivity]]).
    all: intros H16; rewrite (@copy_exact 16 destIp H16); reflexivity.
Qed.

(** X4.  An attempt closes exactly the descriptors it created, each once, with
    one exception: when [os.NewFile] gives nil after a successful connect,
    [dial] returns the error of that case and the descriptor it created
    stays open. *)
Theorem dial_closes_what_it_created destination p :
  closed (trace (dial o ctx source destination sockopt p))
  = created (trace (dial o ctx source destination sockopt p)) \/
  (closed (trace (dial o ctx source destination sockopt p)) = [] /\
   (exists fd, created (trace (dial o ctx source destination sockopt p)) = [fd] /\
               connected (trace (dial o ctx source destination sockopt p))
               = true /\
               os_NewFile o fd = false) /\
   outcome (dial o ctx source destination sockopt p)
   = Done (None, Some (errors_New "failed to connect to fd"))).
Proof.
  unfold trace, outcome. dial_unfold.
  destruct (Address_ destination) as [[destIp|dom]|]; cbn; auto.
  dial_paths; auto.
  all: right; split; [reflexivity|split; [|reflexivity]].
  all: eexists; split; [reflexivity|]; split; [reflexivity|assumption].
Qed.

Lemma dial_closed_when_file destination p :
  (forall fd, os_NewFile o fd = true) ->
  closed (trace (dial o ctx source destination sockopt p))
  = created (trace (dial o ctx source destination sockopt p)).
Proof.
  intros Hnf. unfold trace. dial_unfold.
  destruct (Address_ destination) as [[destIp|dom]|]; cbn; try reflexivity.
  dial_paths; try reflexivity.
  all: match goal with
       | E : os_NewFile _ _ = false |- _ => rewrite Hnf in E; discriminate E
       end.
Qed.

Lemma dial_error_no_conn destination p c e :
  outcome (dial o ctx source destination sockopt p) = Done (c, Some e) ->
  c = None.
Proof.
  unfold outcome. dial_unfold.
  destruct (Address_ destination) as [[destIp|dom]|]; cbn; try discriminate.
  dial_paths; intros Hr; inversion Hr; reflexivity.
Qed.

Lemma dial_nil_nil destination p :
  outcome (dial o ctx source destination sockopt p) = Done (None, None) ->
  packet_conn_failed (trace (dial o ctx source destination sockopt p)) = true.
Proof.
  unfold outcome, trace. dial_unfold.
  destruct (Address_ destination) as [[destIp|dom]|]; cbn; try discriminate.
  dial_paths; intros Hr; try discriminate Hr; reflexivity.
Qed.

Lemma dial_success_facts destination p conn e :
  outcome (dial o ctx source destination sockopt p) = Done (Some conn, e) ->
  e = None /\
  connected (trace (dial o ctx source destination sockopt p)) = true /\
  conversion_error (trace (dial o ctx source destination sockopt p)) = None /\
  exists fd,
    created (trace (dial o ctx source destination sockopt p)) = [fd] /\
    closed (trace (dial o ctx source destination sockopt p)) = [fd] /\
    protect_answers (trace (dial o ctx source destination sockopt p))
    = [(int32 fd, true)] /\
    wrappers (trace (dial o ctx source destination sockopt p))
    = [(fd, conn_wrapped conn)].
Proof.
  unfold outcome, trace. dial_unfold.
  destruct (Address_ destination) as [[destIp|dom]|]; cbn; try discriminate.
  dial_paths; intros Hr; try discriminate Hr.
  all: inversion Hr; subst; repeat split; eexists; repeat split.
Qed.

(** X7.  An attempt returns a connection, and then no error, exactly when its
    connect succeeded and no step of the conversion failed. *)
Theorem dial_connection_iff destination p :
  (exists conn,
      outcome (dial o ctx source destination sockopt p)
      = Done (Some conn, None)) <->
  (connected (trace (dial o ctx source destination sockopt p)) = true /\
   conversion_error (trace (dial o ctx source destination sockopt p)) = None).
Proof.
  unfold outcome, trace. dial_unfold.
  destruct (Address_ destination) as [[destIp|dom]|]; cbn.
  2, 3: split; [intros [c Hc]; discriminate|intros [Hc _]; discriminate].
  dial_paths.
  all: split; [intros [c Hc]; try discriminate Hc; split; reflexivity
              |intros [Hc He]; try discriminate Hc; try discriminate He].
  all: eexists; reflexivity.
Qed.

(** X8.  The connection an attempt returns is chosen by the network kind: for
    UDP a [PacketConnWrapper] of the packet connection made from the file
    of the created descriptor, with the peer address [net.ResolveUDPAddr]
    gave for the address and port of the destination; for any other kind
    the connection [net.FileConn] made from that file. *)
Theorem dial_connection_kind destination p conn e :
  outcome (dial o ctx source destination sockopt p) = Done (Some conn, e) ->
  exists fd,
    created (trace (dial o ctx source destination sockopt p)) = [fd] /\
    match Network_ destination with
    | Network_UDP =>
        exists pc dest,
          conn = PacketConnWrapper pc dest /\
          os_FilePacketConn o {| file_fd := fd; file_name := "socket" |}
          = Ok pc /\
          os_ResolveUDPAddr o "udp" (Address_ destination, Port destination)
          = Ok dest
    | _ =>
        exists c,
          conn = FileConn_conn c /\
          os_FileConn o {| file_fd := fd; file_name := "socket" |} = Ok c
    end.
Proof.
  unfold outcome, trace. dial_unfold. unfold NetAddr.
  destruct (Address_ destination) as [[destIp|dom]|] eqn:Ha; cbn;
    try discriminate.
  dial_paths; intros Hr; try discriminate Hr.
  all: inversion Hr; subst; eexists; (split; [reflexivity|]).
  all: repeat eexists; eassumption.
Qed.

(** X14.  The protector is asked once per attempt at most, about the created
    descriptor converted to [int32]: the descriptor itself below 2^31, and
    the descriptor minus 2^32 from 2^31 up to 2^32. *)
Theorem dial_protect_argument destination p x ok :
  In (x, ok) (protect_answers (trace (dial o ctx source destination sockopt p))) ->
  exists fd,
    created (trace (dial o ctx source destination sockopt p)) = [fd] /\
    protect_answers (trace (dial o ctx source destination sockopt p))
    = [(x, ok)] /\
    x = int32 fd /\
    (0 <= fd < 2 ^ 31 -> x = fd) /\
    (2 ^ 31 <= fd < 2 ^ 32 -> x = fd - 2 ^ 32).
Proof.
  unfold trace. dial_unfold.
  destruct (Address_ destination) as [[destIp|dom]|]; cbn; try contradiction.
  dial_paths; intros Hin; try contradiction.
  all: destruct Hin as [Hin|[]]; inversion Hin; subst.
  all: eexists; split; [reflexivity|]; split; [reflexivity|];
    split; [reflexivity|].
  all: unfold int32; split; intros Hr.
  all: try (rewrite Z.mod_small by lia; lia).
  all: replace (z + 2 ^ 31) with ((z - 2 ^ 31) + 1 * 2 ^ 32) by lia;
    rewrite Z.mod_add by lia; rewrite Z.mod_small by lia; lia.
Qed.

Lemma dial_refusing destination p :
  (forall q fd, fst (Protect q fd) = false) ->
  connect_calls (trace (dial o ctx source destination sockopt p)) = [] /\
  connected (trace (dial o ctx source destination sockopt p)) = false /\
  closed (trace (dial o ctx source destination sockopt p))
  = created (trace (dial o ctx source destination sockopt p)) /\
  forall conn e,
    outcome (dial o ctx source destination sockopt p) <> Done (Some conn, e).
Proof.
  intros Hall. unfold trace, outcome. dial_unfold.
  destruct (Address_ destination) as [[destIp|dom]|]; cbn.
  2, 3: repeat split; intros; discriminate.
  dial_paths.
  all: try match goal with
           | E : Protect ?q ?x = (true, _) |- _ =>
               pose proof (Hall q x) as Hx; rewrite E in Hx; discriminate Hx
           end.
  all: repeat split; intros; discriminate.
Qed.

Lemma dial_accepting destination p :
  (forall q fd, fst (Protect q fd) = true) ->
  protect_refused (trace (dial o ctx source destination sockopt p)) = false /\
  (forall fd,
      In fd (created (trace (dial o ctx source destination sockopt p))) ->
      exists sa,
        connect_calls (trace (dial o ctx source destination sockopt p))
        = [(fd, sa)]).
Proof.
  intros Hall. unfold trace. dial_unfold.
  destruct (Address_ destination) as [[destIp|dom]|]; cbn.
  2, 3: split; [reflexivity|intros fd []].
  dial_paths.
  all: try match goal with
           | E : Protect ?q ?x = (false, _) |- _ =>
               pose proof (Hall q x) as Hx; rewrite E in Hx; discriminate Hx
           end.
  all: split; [reflexivity|intros fd0 Hin; try contradiction].
  all: destruct Hin as [<-|[]]; eexists; reflexivity.
Qed.
End AttemptMore.

Section LoopMore.
Context {P : Type} `{Protector P}.
Variable os : nat -> AttemptOS.
Variable ctx : Context.
Variable source : option Address.
Variable sockopt : option SocketConfig.

Lemma warnings_app (t1 t2 : list DialEvent) :
  warnings (t1 ++ t2) = warnings t1 ++ warnings t2.
Proof.
  induction t1 as [|e t1 IH]; simpl; [reflexivity|].
  destruct e; simpl; rewrite ?IH; reflexivity.
Qed.

Lemma debugs_app (t1 t2 : list DialEvent) :
  debugs (t1 ++ t2) = debugs t1 ++ debugs t2.
Proof.
  induction t1 as [|e t1 IH]; simpl; [reflexivity|].
  destruct e; simpl; rewrite ?IH; reflexivity.
Qed.

Lemma Dial_loop_unfold i ip rest d conn err p :
  (i = 0%nat \/ err <> None) ->
  Dial_loop os ctx source sockopt i (ip :: rest) d conn err p
  = let d' := set_Address d (IPAddress ip) in
    match dial (os i) ctx source d' sockopt p with
    | (Done (c, e), p1, sys) =>
        match Dial_loop os ctx source sockopt (S i) rest d' c e p1 with
        | (r, p2, t2) =>
            (r, p2, iteration_log i err ip
                    ++ EvAttempt d' sys (Done (c, e)) :: t2)
        end
    | (Panicked msg, p1, sys) =>
        (Panicked msg, p1,
         iteration_log i err ip ++ [EvAttempt d' sys (Panicked msg)])
    end.
Proof.
  intros Hi.
  destruct i as [|i].
  - cbn [Dial_loop Nat.ltb Nat.leb iteration_log]. unfold bind, dialer_dial.
    destruct (dial (os 0%nat) ctx source (set_Address d (IPAddress ip)) sockopt p)
      as [[[[c e]|msg] p1] sys]; cbn; [|reflexivity].
    destruct (Dial_loop os ctx source sockopt 1 rest
                (set_Address d (IPAddress ip)) c e p1) as [[r p2] t2].
    reflexivity.
  - destruct err as [e0|]; [|destruct Hi; [discriminate|congruence]].
    cbn [Dial_loop Nat.ltb Nat.leb iteration_log].
    unfold bind, dialer_dial, logrus_Warn, logrus_Debug, emit.
    destruct (dial (os (S i)) ctx source (set_Address d (IPAddress ip))
                sockopt p) as [[[[c e]|msg] p1] sys]; cbn; [|reflexivity].
    destruct (Dial_loop os ctx source sockopt (S (S i)) rest
                (set_Address d (IPAddress ip)) c e p1) as [[r p2] t2].
    reflexivity.
Qed.

Lemma Dial_loop_logs : forall ips i d conn err p r p' tr,
  (i = 0%nat \/ err <> None) ->
  ips <> [] ->
  Dial_loop os ctx source sockopt i ips d conn err p = (r, p', tr) ->
  map Some (warnings tr)
  = entry_warning i err ++ map att_error (removelast (attempts tr)) /\
  debugs tr = entry_debugs i (firstn (List.length (attempts tr)) ips).
Proof.
  induction ips as [|ip rest IH]; intros i d conn err p r p' tr Hi Hne Hrun;
    [congruence|].
  rewrite (@Dial_loop_unfold i ip rest d conn err p Hi) in Hrun.
  cbv zeta in Hrun.
  assert (Hlog : map Some (warnings (iteration_log i err ip))
                 = entry_warning i err /\
                 attempts (iteration_log i err ip) = [] /\
                 forall l, debugs (iteration_log i err ip) ++ l
                           = entry_debugs i (ip :: l)).
  { destruct i as [|i]; [repeat split|].
    destruct err as [e0|]; [repeat split|].
    destruct Hi; [discriminate|congruence]. }
  destruct Hlog as (Hw & Ha & Hdb).
  destruct (dial (os i) ctx source (set_Address d (IPAddress ip)) sockopt p)
    as [[[[c e]|msg] p1] sys] eqn:Hd.
  - destruct (Dial_loop os ctx source sockopt (S i) rest
                (set_Address d (IPAddress ip)) c e p1)
      as [[r2 p2] t2] eqn:Hl.
    inversion Hrun; subst r p' tr; clear Hrun.
    rewrite warnings_app, debugs_app, attempts_app, Ha, map_app, Hw.
    cbn [attempts warnings debugs app].
    destruct e as [e|]; [destruct rest as [|ip2 rest2]|].
    + cbn in Hl. inversion Hl; subst. cbn. rewrite app_nil_r.
      split; [reflexivity|]. apply Hdb.
    + pose proof Hl as Hl'.
      apply IH in Hl'; [|right; discriminate|discriminate].
      destruct Hl' as [IHw IHd].
      apply Dial_loop_run in Hl; [|right; discriminate|discriminate].
      destruct Hl as [Hrun2 _].
      apply LoopRun_length in Hrun2. destruct Hrun2 as [Hlen _].
      destruct (attempts t2) as [|a2 atts2] eqn:Hatts; [cbn in Hlen; lia|].
      rewrite IHw, IHd. cbn [entry_warning entry_debugs app].
      split.
      * cbn [removelast map]. reflexivity.
      * rewrite Hdb. reflexivity.
    + rewrite Dial_loop_break in Hl. inversion Hl; subst. cbn.
      rewrite app_nil_r. split; [reflexivity|]. apply Hdb.
  - inversion Hrun; subst r p' tr; clear Hrun.
    rewrite warnings_app, debugs_app, attempts_app, Ha, map_app, Hw. cbn.
    rewrite app_nil_r. split; [reflexivity|]. apply Hdb.
Qed.
End LoopMore.

(** ** Runs of [Dial] *)

Section DialMore.
Context {P : Type} `{Protector P}.
Variable os : nat -> AttemptOS.
Variable dialer : protectedDialer P.
Variable ctx : Context.
Variable source : option Address.
Variable destination : Destination.
Variable sockopt : option SocketConfig.

Local Abbreviation run := (Dial os dialer ctx source destination sockopt).
Local Abbreviation atts := (attempts (trace run)).

(** The three ways a call of [Dial] goes: the panic for an invalid
    destination, the failed resolution, the loop over candidates. *)
Lemma Dial_cases :
  ((Network_ destination = Network_Unknown \/ Address_ destination = None) /\
   run = (Panicked "connect to invalid destination", protector dialer, [])) \/
  (exists domain r e,
      Address_ destination = Some (AddrDomain domain) /\
      run = (Done (None, Some e), protector dialer,
             [EvResolve ctx domain r])) \/
  (exists ips, has_candidates dialer ctx destination ips).
Proof.
  destruct (Network_eqb (Network_ destination) Network_Unknown) eqn:Hu.
  { left. split; [left; destruct (Network_ destination); try discriminate;
                  reflexivity|].
    unfold Dial, Dial_body. rewrite Hu. reflexivity. }
  assert (Hn : Network_ destination <> Network_Unknown)
    by (intros E; rewrite E in Hu; discriminate).
  destruct (Address_ destination) as [[ip|domain]|] eqn:Ha.
  - right. right. exists [ip]. split; [exact Hn|]. rewrite Ha. reflexivity.
  - destruct (resolver dialer ctx domain) as [ips err] eqn:Hr.
    destruct err as [e|]; [|destruct ips as [|ip0 rest]].
    + right. left. exists domain, (ips, Some e), e. split; [reflexivity|].
      unfold Dial, Dial_body. rewrite Hu, Ha. cbn -[Dial_loop].
      unfold bind, ret, dialer_resolver, emit. rewrite Hr. reflexivity.
    + right. left. exists domain, ([], None), dns_ErrEmptyResponse.
      split; [reflexivity|].
      unfold Dial, Dial_body. rewrite Hu, Ha. cbn -[Dial_loop].
      unfold bind, ret, dialer_resolver, emit. rewrite Hr. reflexivity.
    + right. right. exists (ip0 :: rest). split; [exact Hn|].
      rewrite Ha. split; [exact Hr|discriminate].
  - left. split; [right; reflexivity|].
    unfold Dial, Dial_body. rewrite Ha. cbn. rewrite orb_true_r.
    reflexivity.
Qed.

(** An attempt in the trace of [Dial] is a run of [dial] for the
    destination of [Dial] with the address replaced. *)
Lemma Dial_attempt_is_dial ips a :
  has_candidates dialer ctx destination ips ->
  In a atts ->
  exists i p,
    att_sys a = trace (dial (os i) ctx source (att_destination a) sockopt p) /\
    att_result a
    = outcome (dial (os i) ctx source (att_destination a) sockopt p) /\
    Network_ (att_destination a) = Network_ destination /\
    Port (att_destination a) = Port destination.
Proof.
  intros Hc Hin. apply In_nth_error in Hin. destruct Hin as [j Hj].
  destruct (@Dial_run _ _ os dialer ctx source destination sockopt ips Hc)
    as (Hrun & _).
  destruct (LoopRun_nth Hrun _ Hj) as ((ip & _ & Hd) & (p & p' & Hm) & _).
  exists (0 + j)%nat, p. rewrite Hm. cbn. rewrite Hd. repeat split.
Qed.

Lemma Dial_last_attempt ips :
  has_candidates dialer ctx destination ips ->
  exists l, nth_error atts (List.length atts - 1) = Some l /\
            In l atts /\ outcome run = att_result l.
Proof.
  intros Hc.
  destruct (@Dial_run _ _ os dialer ctx source destination sockopt ips Hc)
    as (Hrun & _).
  destruct (LoopRun_last Hrun) as (l & Hl & Hout).
  exists l. split; [exact Hl|]. split; [|exact Hout].
  eapply nth_error_In. exact Hl.
Qed.

(** X5.  [Dial] never returns a connection together with an error. *)
Theorem Dial_no_connection_with_error c e :
  outcome run = Done (c, Some e) -> c = None.
Proof.
  intros Hr.
  destruct Dial_cases as [[_ Hp]|[(domain & r & e0 & _ & Hf)|(ips & Hc)]].
  - rewrite Hp in Hr. discriminate.
  - rewrite Hf in Hr. cbn in Hr. congruence.
  - destruct (Dial_last_attempt Hc) as (l & _ & Hin & Hout).
    destruct (Dial_attempt_is_dial l Hc Hin) as (i & p & _ & Hres & _).
    rewrite Hout, Hres in Hr. eapply dial_error_no_conn. exact Hr.
Qed.

(** X6.  [Dial] returns neither a connection nor an error only for a UDP
    destination, and only when its last attempt connected and
    [net.FilePacketConn] failed. *)
Theorem Dial_nil_nil_only_for_datagram :
  outcome run = Done (None, None) ->
  Network_ destination = Network_UDP /\
  exists a, nth_error atts (List.length atts - 1) = Some a /\
            att_result a = Done (None, None) /\
            connected (att_sys a) = true /\
            packet_conn_failed (att_sys a) = true.
Proof.
  intros Hr.
  destruct Dial_cases as [[_ Hp]|[(domain & r & e0 & _ & Hf)|(ips & Hc)]].
  - rewrite Hp in Hr. discriminate.
  - rewrite Hf in Hr. discriminate.
  - destruct (Dial_last_attempt Hc) as (l & Hl & Hin & Hout).
    destruct (Dial_attempt_is_dial l Hc Hin) as (i & p & Hsys & Hres & Hn & _).
    rewrite Hout in Hr. pose proof Hr as Hr'. rewrite Hres in Hr'.
    apply dial_nil_nil in Hr'.
    destruct (dial_packet_conn_failed _ _ _ _ _ _ Hr')
      as (_ & Hudp & Hconn & _).
    rewrite <- Hsys in Hr', Hconn. rewrite Hn in Hudp.
    split; [exact Hudp|]. exists l. auto.
Qed.

(** X9.  A connection returned by [Dial] comes without error from the last
    attempt: the protector accepted the descriptor of that attempt, the
    connect succeeded, the connection is the one object made from the file
    of that descriptor, and the descriptor itself has been closed. *)
Theorem Dial_returned_connection_is_protected conn e :
  outcome run = Done (Some conn, e) ->
  e = None /\
  exists a fd,
    nth_error atts (List.length atts - 1) = Some a /\
    att_result a = Done (Some conn, None) /\
    created (att_sys a) = [fd] /\
    protect_answers (att_sys a) = [(int32 fd, true)] /\
    connected (att_sys a) = true /\
    wrappers (att_sys a) = [(fd, conn_wrapped conn)] /\
    closed (att_sys a) = [fd].
Proof.
  intros Hr.
  destruct Dial_cases as [[_ Hp]|[(domain & r & e0 & _ & Hf)|(ips & Hc)]].
  - rewrite Hp in Hr. discriminate.
  - rewrite Hf in Hr. discriminate.
  - destruct (Dial_last_attempt Hc) as (l & Hl & Hin & Hout).
    destruct (Dial_attempt_is_dial l Hc Hin) as (i & p & Hsys & Hres & _).
    rewrite Hout in Hr. pose proof Hr as Hr'. rewrite Hres in Hr'.
    destruct (dial_success_facts _ _ _ _ _ _ Hr')
      as (He & Hconn & _ & fd & Hcr & Hcl & Hpa & Hw).
    rewrite <- Hsys in Hconn, Hcr, Hcl, Hpa, Hw. subst e.
    split; [reflexivity|]. exists l, fd. auto 10.
Qed.

Lemma Dial_any_attempt_is_dial a :
  In a atts ->
  exists i p,
    att_sys a = trace (dial (os i) ctx source (att_destination a) sockopt p) /\
    att_result a
    = outcome (dial (os i) ctx source (att_destination a) sockopt p) /\
    Network_ (att_destination a) = Network_ destination /\
    Port (att_destination a) = Port destination.
Proof.
  intros Hin.
  destruct Dial_cases as [[_ Hp]|[(domain & r & e0 & _ & Hf)|(ips & Hc)]].
  - rewrite Hp in Hin. contradiction.
  - rewrite Hf in Hin. contradiction.
  - eapply Dial_attempt_is_dial; eassumption.
Qed.

(** With candidates, the trace of [Dial] is the resolver call, if the
    destination is a domain, and then the trace of the loop. *)
Lemma Dial_is_loop ips :
  has_candidates dialer ctx destination ips ->
  exists pre p' tr,
    Dial_loop os ctx source sockopt 0 ips destination None None
              (protector dialer) = (outcome run, p', tr) /\
    trace run = pre ++ tr /\
    attempts pre = [] /\ warnings pre = [] /\ debugs pre = [] /\
    match Address_ destination with
    | Some (AddrDomain domain) => resolver_calls pre = [(ctx, domain)]
    | _ => resolver_calls pre = []
    end.
Proof.
  intros [Hn Ha]. unfold Dial, Dial_body.
  replace (Network_eqb (Network_ destination) Network_Unknown) with false
    by (destruct (Network_ destination); [congruence|reflexivity..]).
  destruct (Address_ destination) as [[ip|domain]|] eqn:Haddr;
    [| |contradiction]; cbv beta iota.
  - assert (Hfam : IsDomain (Family (AddrIP ip)) = false)
      by (unfold Family; destruct (Nat.eqb (List.length ip) IPv4len);
          reflexivity).
    rewrite Hfam. cbn -[Dial_loop]. subst ips. unfold bind, ret.
    destruct (Dial_loop os ctx source sockopt 0 [ip] destination None None
                (protector dialer)) as [[r p'] tr] eqn:Hl.
    exists [], p', tr. cbn. repeat split.
  - destruct Ha as [Hres Hne]. cbn -[Dial_loop].
    unfold bind, ret, dialer_resolver, emit. rewrite Hres. cbn -[Dial_loop].
    destruct ips as [|ip0 rest]; [congruence|]. cbn [List.length Nat.eqb].
    destruct (Dial_loop os ctx source sockopt 0 (ip0 :: rest) destination
                None None (protector dialer)) as [[r p'] tr] eqn:Hl.
    exists [EvResolve ctx domain (ip0 :: rest, None)], p', tr. cbn.
    repeat split.
Qed.

(** X10.  [Dial] calls the resolver at most once: exactly once, with the
    context of the caller and the domain, for a domain destination of known
    kind, and not at all for an IP destination. *)
Theorem Dial_resolver_called_once :
  (List.length (resolver_calls (trace run)) <= 1)%nat /\
  (forall domain,
      Network_ destination <> Network_Unknown ->
      Address_ destination = Some (AddrDomain domain) ->
      resolver_calls (trace run) = [(ctx, domain)]) /\
  (forall ip,
      Address_ destination = Some (AddrIP ip) ->
      resolver_calls (trace run) = []).
Proof.
  assert (Hcand : forall ips,
             has_candidates dialer ctx destination ips ->
             match Address_ destination with
             | Some (AddrDomain domain) =>
                 resolver_calls (trace run) = [(ctx, domain)]
             | _ => resolver_calls (trace run) = []
             end).
  { intros ips Hc.
    destruct (Dial_is_loop Hc) as (pre & p' & tr & Hl & Ht & _ & _ & _ & Hpre).
    apply Dial_loop_run in Hl;
      [|left; reflexivity|destruct Hc as [_ Hc];
                          destruct (Address_ destination) as [[?|?]|];
                          [subst ips; discriminate|tauto|contradiction]].
    destruct Hl as [_ Hr].
    rewrite Ht, resolver_calls_app, Hr, app_nil_r. exact Hpre. }
  destruct Dial_cases as [[Hinv Hp]|[(domain & r & e0 & Ha & Hf)|(ips & Hc)]].
  - rewrite Hp. cbn. split; [lia|]. split.
    + intros domain Hn Ha. destruct Hinv; congruence.
    + intros ip Ha. reflexivity.
  - rewrite Hf. cbn. split; [lia|]. split.
    + intros domain' _ Ha'. congruence.
    + intros ip Ha'. congruence.
  - specialize (Hcand _ Hc).
    destruct (Address_ destination) as [[ip|domain]|] eqn:Ha.
    + rewrite Hcand. cbn. split; [lia|]. split; [discriminate|reflexivity].
    + rewrite Hcand. cbn. split; [lia|]. split; [congruence|discriminate].
    + destruct Hc as [_ Hc]. rewrite Ha in Hc. contradiction.
Qed.

(** X11.  In a run of [Dial] with candidates, the warnings are the errors of
    the attempts that were followed by another attempt, in order, and the
    debug lines are the candidates tried after the first, in order. *)
Theorem Dial_logs_failed_attempts ips :
  has_candidates dialer ctx destination ips ->
  map Some (warnings (trace run)) = map att_error (removelast atts) /\
  debugs (trace run) = tl (firstn (List.length atts) ips).
Proof.
  intros Hc.
  destruct (Dial_is_loop Hc) as (pre & p' & tr & Hl & Ht & Ha & Hw & Hd & _).
  apply Dial_loop_logs in Hl;
    [|left; reflexivity|destruct Hc as [_ Hc'];
                        destruct (Address_ destination) as [[?|?]|];
                        [subst ips; discriminate|tauto|contradiction]].
  destruct Hl as [Hlw Hld].
  rewrite Ht, warnings_app, debugs_app, attempts_app, Hw, Hd, Ha. cbn.
  split; assumption.
Qed.

(** X13.  When [os.NewFile] always gives a file, every attempt of a run of
    [Dial] has closed every descriptor it created: no descriptor is left
    open by a failed attempt or carried to the next. *)
Theorem Dial_descriptors_all_closed :
  (forall i fd, os_NewFile (os i) fd = true) ->
  Forall (fun a => closed (att_sys a) = created (att_sys a)) atts.
Proof.
  intros Hnf. apply Forall_forall. intros a Hin.
  destruct (Dial_any_attempt_is_dial a Hin) as (i & p & Hsys & _).
  rewrite Hsys.
  apply dial_closed_when_file. intros fd. apply Hnf.
Qed.

(** X12.  With a protector that refuses every descriptor, no attempt of [Dial]
    makes a connect call, every created descriptor is closed, and [Dial]
    returns no connection; with well-formed candidates every candidate is
    tried and [Dial] returns an error. *)
Theorem Dial_refusing_protector_never_connects :
  (forall q fd, fst (Protect q fd) = false) ->
  Forall (fun a => connect_calls (att_sys a) = [] /\
                   closed (att_sys a) = created (att_sys a)) atts /\
  (forall conn e, outcome run <> Done (Some conn, e)) /\
  (forall ips,
      has_candidates dialer ctx destination ips ->
      forallb valid_ip ips = true ->
      List.length atts = List.length ips /\
      exists e, outcome run = Done (None, Some e)).
Proof.
  intros Hall. split; [|split].
  - apply Forall_forall. intros a Hin.
    destruct (Dial_any_attempt_is_dial a Hin) as (i & p & Hsys & _).
    rewrite Hsys.
    destruct (dial_refusing (os i) ctx source sockopt (att_destination a) p
                Hall) as (Hcc & _ & Hcl & _).
    split; assumption.
  - intros conn e Hr.
    destruct Dial_cases as [[_ Hp]|[(domain & r & e0 & _ & Hf)|(ips & Hc)]].
    + rewrite Hp in Hr. discriminate.
    + rewrite Hf in Hr. discriminate.
    + destruct (Dial_last_attempt Hc) as (l & _ & Hin & Hout).
      destruct (Dial_attempt_is_dial l Hc Hin) as (i & p & _ & Hres & _).
      rewrite Hout, Hres in Hr.
      destruct (dial_refusing (os i) ctx source sockopt (att_destination l) p
                  Hall) as (_ & _ & _ & Hno).
      exact (Hno conn e Hr).
  - intros ips Hc Hv.
    destruct (@Dial_run _ _ os dialer ctx source destination sockopt ips Hc)
      as (Hrun & _).
    pose proof (LoopRun_length Hrun) as [Hl1 Hl2].
    destruct (LoopRun_last Hrun) as (l & Hl & Hout).
    destruct (LoopRun_nth Hrun _ Hl)
      as ((lip & Hlip & Hldest) & (p & p' & Hd) & _ & _ & Hlfail).
    assert (Hvl : valid_ip lip = true).
    { rewrite forallb_forall in Hv. apply Hv.
      eapply nth_error_In. exact Hlip. }
    destruct (IPAddress_valid _ Hvl) as (x & Hx).
    assert (Haddr : Address_ (att_destination l) = Some (AddrIP x))
      by (rewrite Hldest; exact Hx).
    destruct (@dial_returns _ _ (os (0 + (List.length atts - 1))%nat) ctx
                source sockopt (att_destination l) x p Haddr) as (c & e & Hce).
    destruct (dial_refusing (os (0 + (List.length atts - 1))%nat) ctx source
                sockopt (att_destination l) p Hall) as (_ & Hnc & _ & Hno).
    destruct c as [conn|]; [exfalso; exact (Hno conn e Hce)|].
    destruct e as [e|].
    + assert (Hres : att_result l = Done (None, Some e))
        by (rewrite Hd in Hce; exact Hce).
      assert (Hf : att_failed l = true)
        by (unfold att_failed; rewrite Hres; reflexivity).
      specialize (Hlfail Hf).
      split; [lia|]. exists e. rewrite Hout. exact Hres.
    + apply dial_nil_nil in Hce.
      destruct (dial_packet_conn_failed _ _ _ _ _ _ Hce) as (_ & _ & Hconn & _).
      rewrite Hnc in Hconn. discriminate.
Qed.
End DialMore.

(** X15.  With the no-op protector no attempt is refused: every attempt that
    created a descriptor goes on to its connect call on that descriptor. *)
Theorem Dial_noop_protector_never_refuses :
  forall (os : nat -> AttemptOS) (dialer : protectedDialer noopProtector)
         ctx source destination sockopt,
    Forall (fun a =>
              protect_refused (att_sys a) = false /\
              forall fd, In fd (created (att_sys a)) ->
                         exists sa, connect_calls (att_sys a) = [(fd, sa)])
           (attempts (trace (Dial os dialer ctx source destination sockopt))).
Proof.
  intros os dialer ctx source destination sockopt.
  apply Forall_forall. intros a Hin.
  destruct (Dial_any_attempt_is_dial _ _ _ _ _ _ a Hin) as (i & p & Hsys & _).
  rewrite Hsys.
  apply dial_accepting. intros q fd. reflexivity.
Qed.

(** ** The theorems above at concrete runs *)

Lemma dial_connects_only_protected_witness :
  created (trace sockopt_run) = [7] /\
  protect_answers (trace sockopt_run) = [(int32 7, true)].
Proof.
  assert (Hin : In (7, SockaddrInet4 443 ip_10_0_0_1)
                   (connect_calls (trace sockopt_run)))
    by (vm_compute; left; reflexivity).
  pose proof (@dial_connects_only_protected noopProtector _ (os_ok 7)
                (CallerCtx 1) None (Some {| Mark := 255 |})
                (example_destination Network_TCP (AddrIP ip_10_0_0_1))
                noopProtectorInstance 7 (SockaddrInet4 443 ip_10_0_0_1)
                Hin) as (_ & Hc & Hp).
  split; assumption.
Defined.

Lemma dial_connect_address_witness :
  map (fun c => fst (fst c)) (socket_calls (trace sockopt_run)) = [AF_INET].
Proof.
  assert (Hin : In (7, SockaddrInet4 443 ip_10_0_0_1)
                   (connect_calls (trace sockopt_run)))
    by (vm_compute; left; reflexivity).
  pose proof (@dial_connect_address noopProtector _ (os_ok 7)
                (CallerCtx 1) None (Some {| Mark := 255 |})
                (example_destination Network_TCP (AddrIP ip_10_0_0_1))
                ip_10_0_0_1 noopProtectorInstance 7
                (SockaddrInet4 443 ip_10_0_0_1) eq_refl Hin) as (H4 & _).
  exact (proj2 (H4 eq_refl)).
Defined.

Lemma dial_connection_iff_witness :
  exists conn, outcome sockopt_run = Done (Some conn, None).
Proof.
  exact (proj2 (@dial_connection_iff noopProtector _ (os_ok 7)
                  (CallerCtx 1) None (Some {| Mark := 255 |})
                  (example_destination Network_TCP (AddrIP ip_10_0_0_1))
                  noopProtectorInstance)
               (conj eq_refl eq_refl)).
Defined.

Lemma dial_connection_kind_witness :
  exists fd,
    created (trace sockopt_run) = [fd] /\
    exists c,
      FileConn_conn {| nc_id := 107 |} = FileConn_conn c /\
      os_FileConn (os_ok 7) {| file_fd := fd; file_name := "socket" |} = Ok c.
Proof.
  exact (@dial_connection_kind noopProtector _ (os_ok 7)
           (CallerCtx 1) None (Some {| Mark := 255 |})
           (example_destination Network_TCP (AddrIP ip_10_0_0_1))
           noopProtectorInstance (FileConn_conn {| nc_id := 107 |}) None
           eq_refl).
Defined.

Lemma dial_protect_argument_witness :
  exists fd,
    created (trace sockopt_run) = [fd] /\
    protect_answers (trace sockopt_run) = [(7, true)] /\
    7 = int32 fd.
Proof.
  assert (Hin : In (7, true) (protect_answers (trace sockopt_run)))
    by (vm_compute; left; reflexivity).
  destruct (@dial_protect_argument noopProtector _ (os_ok 7)
              (CallerCtx 1) None (Some {| Mark := 255 |})
              (example_destination Network_TCP (AddrIP ip_10_0_0_1))
              noopProtectorInstance 7 true Hin)
    as (fd & Hc & Hp & Hx & _).
  exists fd. auto.
Defined.

Lemma Dial_no_connection_with_error_witness :
  outcome always_refused_run
  = Done (None, Some (errors_New "protect failed")) /\
  (None : option Conn) = None.
Proof.
  split; [reflexivity|].
  exact (@Dial_no_connection_with_error refusingProtector _
           (fun _ => os_ok 7) (always_refusing_dialer two_addresses)
           (CallerCtx 1) None example_domain None None
           (errors_New "protect failed") eq_refl).
Defined.

Lemma Dial_nil_nil_only_for_datagram_witness :
  Network_ datagram_destination = Network_UDP.
Proof.
  exact (proj1 (@Dial_nil_nil_only_for_datagram noopProtector _
                  (fun _ => os_wrap_fails 7) (example_dialer [])
                  (CallerCtx 1) None datagram_destination None eq_refl)).
Defined.

Lemma Dial_returned_connection_is_protected_witness :
  exists a fd,
    att_result a = Done (Some (FileConn_conn {| nc_id := 107 |}), None) /\
    protect_answers (att_sys a) = [(int32 fd, true)] /\
    closed (att_sys a) = [fd].
Proof.
  assert (Hout : outcome success_run
                 = Done (Some (FileConn_conn {| nc_id := 107 |}), None))
    by (vm_compute; reflexivity).
  destruct (@Dial_returned_connection_is_protected noopProtector _
              (fun _ => os_ok 7) (example_dialer two_addresses)
              (CallerCtx 1) None example_domain None
              (FileConn_conn {| nc_id := 107 |}) None Hout)
    as (_ & a & fd & _ & Hr & _ & Hp & _ & _ & Hcl).
  exists a, fd. auto.
Defined.

Lemma Dial_resolver_called_once_witness :
  resolver_calls (trace success_run) = [(CallerCtx 1, "example.test")].
Proof.
  exact (proj1 (proj2 (@Dial_resolver_called_once noopProtector _
                         (fun _ => os_ok 7) (example_dialer two_addresses)
                         (CallerCtx 1) None example_domain None))
               "example.test" ltac:(discriminate) eq_refl).
Defined.

Lemma Dial_logs_failed_attempts_witness :
  map Some (warnings (trace fallback_run))
  = map att_error (removelast (attempts (trace fallback_run))) /\
  debugs (trace fallback_run)
  = tl (firstn (List.length (attempts (trace fallback_run))) two_addresses).
Proof.
  assert (Hc : has_candidates (example_dialer two_addresses) (CallerCtx 1)
                 example_domain two_addresses)
    by (split; [discriminate|split; [reflexivity|discriminate]]).
  exact (@Dial_logs_failed_attempts noopProtector _ os_first_unreachable
           (example_dialer two_addresses) (CallerCtx 1) None example_domain
           None two_addresses Hc).
Defined.

Lemma Dial_descriptors_all_closed_witness :
  Forall (fun a => closed (att_sys a) = created (att_sys a))
         (attempts (trace fallback_run)).
Proof.
  exact (@Dial_descriptors_all_closed noopProtector _ os_first_unreachable
           (example_dialer two_addresses) (CallerCtx 1) None example_domain
           None
           (fun i fd => match i with O => eq_refl | S _ => eq_refl end)).
Defined.

Lemma Dial_refusing_protector_never_connects_witness :
  List.length (attempts (trace always_refused_run))
  = List.length two_addresses /\
  exists e, outcome always_refused_run = Done (None, Some e).
Proof.
  assert (Hc : has_candidates (always_refusing_dialer two_addresses)
                 (CallerCtx 1) example_domain two_addresses)
    by (split; [discriminate|split; [reflexivity|discriminate]]).
  assert (Hv : forallb valid_ip two_addresses = true) by reflexivity.
  exact (proj2 (proj2 (@Dial_refusing_protector_never_connects
                         refusingProtector _ (fun _ => os_ok 7)
                         (always_refusing_dialer two_addresses)
                         (CallerCtx 1) None example_domain None
                         (fun _ _ => eq_refl)))
               two_addresses Hc Hv).
Defined.
